(** * nelpy: epoch arrays and spike trains (objects.py)

    A shallow embedding of [nelpy/objects.py].  The two classes of the file,
    [EpochArray] and [SpikeTrain], are translated method by method; the part
    of numpy they call is modelled in [Module np].

    Conventions of the embedding:
    - numbers (Python ints and floats) are exact rationals [Q]; rounding,
      NaN and infinities are outside the model;
    - a numpy array is its shape together with its row-major contents;
    - a raised exception is a value of [exn]; a method that can raise returns
      a [result];
    - [warnings.warn] has no effect on any returned value and is left out;
    - [np.argsort] is taken to be a stable sort. *)

From Stdlib Require Import String QArith Qminmax Lqa ZArith Lia Bool PeanoNat List Sorted Permutation.
Import ListNotations.

Set Implicit Arguments.

(** ** Exceptions *)

Inductive exn : Type :=
| ValueError (msg : string)
| TypeError (msg : string)
| IndexError (msg : string).

Inductive result (A : Type) : Type :=
| Ok (a : A)
| Raise (e : exn).

Arguments Ok {A} a.
Arguments Raise {A} e.

Definition bind {A B : Type} (c : result A) (k : A -> result B) : result B :=
  match c with
  | Ok a => k a
  | Raise e => Raise e
  end.

Notation "x <- c ;; k" := (bind c (fun x => k))
  (at level 61, c at next level, right associativity).

(** [try: body except: handler] with a bare [except]. *)
Definition try_except {A : Type} (body : result A) (handler : exn -> result A)
  : result A :=
  match body with
  | Ok a => Ok a
  | Raise e => handler e
  end.

(** ** Comparisons on numbers *)

Definition Qleb (x y : Q) : bool := Qle_bool x y.
Definition Qltb (x y : Q) : bool := negb (Qle_bool y x).
Definition Qeqb (x y : Q) : bool := Qeq_bool x y.

(** ** Stable sorting by a key *)

Section SortBy.
Variable A : Type.
Variable key : A -> Q.

Fixpoint insert_by (x : A) (l : list A) : list A :=
  match l with
  | [] => [x]
  | y :: l' => if Qleb (key x) (key y) then x :: l else y :: insert_by x l'
  end.

Definition sort_by (l : list A) : list A := fold_right insert_by [] l.
End SortBy.

(** ** The part of numpy used by objects.py *)

Module np.

Record ndarray : Type := mk_nd { shape : list nat; data : list Q }.

Definition size_of (sh : list nat) : nat := fold_right Nat.mul 1%nat sh.

(** An array holds as many numbers as its shape says. *)
Definition wf (a : ndarray) : Prop := length (data a) = size_of (shape a).

Definition ndim (a : ndarray) : nat := length (shape a).

(** [a.shape[k]]; the callers only ask for an axis that exists. *)
Definition dim (k : nat) (a : ndarray) : nat := nth k (shape a) 0%nat.

(** [np.array(x)] for a number, a flat list, a list of pairs. *)
Definition scalar (x : Q) : ndarray := mk_nd [] [x].
Definition vec (xs : list Q) : ndarray := mk_nd [length xs] xs.
Definition flat (l : list (Q * Q)) : list Q :=
  concat (map (fun p => [fst p; snd p]) l).
Definition of_pairs (l : list (Q * Q)) : ndarray := mk_nd [length l; 2%nat] (flat l).

(** [len(a)]: a zero-dimensional array has no length. *)
Definition len (a : ndarray) : result nat :=
  match shape a with
  | [] => Raise (TypeError "len() of unsized object")
  | n :: _ => Ok n
  end.

(** [np.squeeze(a)] drops every axis of length one. *)
Definition squeeze (a : ndarray) : ndarray :=
  mk_nd (filter (fun d => negb (d =? 1)%nat) (shape a)) (data a).

(** [a[..., np.newaxis]] *)
Definition newaxis (a : ndarray) : ndarray := mk_nd (shape a ++ [1%nat]) (data a).

(** [np.array([a])] *)
Definition wrap (a : ndarray) : ndarray := mk_nd (1%nat :: shape a) (data a).

(** The [r] consecutive blocks of [c] numbers of [d]. *)
Fixpoint chunks (r c : nat) (d : list Q) : list (list Q) :=
  match r with
  | O => []
  | S r' => firstn c d :: chunks r' c (skipn c d)
  end.

(** A Python index [i] on an axis of length [n]: negative indices count
    from the end. *)
Definition norm_index (n : nat) (i : Z) : option nat :=
  if ((- Z.of_nat n <=? i) && (i <? Z.of_nat n))%Z
  then Some (Z.to_nat (if (i <? 0)%Z then i + Z.of_nat n else i))
  else None.

(** [a[i]] *)
Definition item (a : ndarray) (i : Z) : result ndarray :=
  match shape a with
  | [] => Raise (IndexError "too many indices for array")
  | n :: rest =>
      match norm_index n i with
      | Some k =>
          let sz := size_of rest in
          Ok (mk_nd rest (firstn sz (skipn (k * sz) (data a))))
      | None => Raise (IndexError "index is out of bounds for axis 0")
      end
  end.

(** [a[i, :]] *)
Definition row (a : ndarray) (i : Z) : result ndarray :=
  if (ndim a <? 2)%nat then Raise (IndexError "too many indices for array")
  else item a i.

(** [a[:, j]] *)
Definition col (a : ndarray) (j : nat) : result ndarray :=
  match shape a with
  | r :: c :: rest =>
      if (j <? c)%nat then
        let sz := size_of rest in
        Ok (mk_nd (r :: rest)
              (concat (map (fun blk => firstn sz (skipn (j * sz) blk))
                         (chunks r (c * sz) (data a)))))
      else Raise (IndexError "index is out of bounds for axis 1")
  | _ => Raise (IndexError "too many indices for array")
  end.

(** A slice bound on an axis of length [n], as Python clamps it. *)
Definition clamp (n : nat) (dflt : nat) (b : option Z) : nat :=
  match b with
  | None => dflt
  | Some z =>
      if (z <? 0)%Z then Z.to_nat (Z.max 0 (z + Z.of_nat n))
      else Nat.min (Z.to_nat z) n
  end.

(** [a[start:stop]] *)
Definition slice (a : ndarray) (start stop : option Z) : result ndarray :=
  match shape a with
  | [] => Raise (IndexError "too many indices for array")
  | n :: rest =>
      let lo := clamp n 0%nat start in
      let hi := clamp n n stop in
      let sz := size_of rest in
      Ok (mk_nd ((hi - lo)%nat :: rest)
            (firstn ((hi - lo) * sz) (skipn (lo * sz) (data a))))
  end.

(** [a[start:stop, :]] *)
Definition slice_rows (a : ndarray) (start stop : option Z) : result ndarray :=
  if (ndim a <? 2)%nat then Raise (IndexError "too many indices for array")
  else slice a start stop.

(** [np.hstack((a, b))]; both operands are two-dimensional at every call
    site of objects.py. *)
Fixpoint zip_app (xs ys : list (list Q)) : list (list Q) :=
  match xs, ys with
  | x :: xs', y :: ys' => (x ++ y) :: zip_app xs' ys'
  | _, _ => []
  end.

Definition hstack (a b : ndarray) : result ndarray :=
  match shape a, shape b with
  | [r1; c1], [r2; c2] =>
      if (r1 =? r2)%nat then
        Ok (mk_nd [r1; (c1 + c2)%nat]
              (concat (zip_app (chunks r1 c1 (data a)) (chunks r2 c2 (data b)))))
      else Raise (ValueError "all the input array dimensions except for the concatenation axis must match exactly")
  | _, _ => Raise (ValueError "hstack: operand is not two-dimensional")
  end.

(** Elementwise operation with a number. *)
Definition map (f : Q -> Q) (a : ndarray) : ndarray :=
  mk_nd (shape a) (List.map f (data a)).

Fixpoint zip_with (f : Q -> Q -> Q) (xs ys : list Q) : list Q :=
  match xs, ys with
  | x :: xs', y :: ys' => f x y :: zip_with f xs' ys'
  | _, _ => []
  end.

(** Elementwise operation on two vectors, with numpy's broadcasting of a
    vector of length one. *)
Definition broadcast (f : Q -> Q -> Q) (a b : ndarray) : result ndarray :=
  match shape a, shape b with
  | [n], [m] =>
      if (n =? m)%nat then Ok (mk_nd [n] (zip_with f (data a) (data b)))
      else if (m =? 1)%nat then
        Ok (mk_nd [n] (List.map (fun x => f x (hd 0 (data b))) (data a)))
      else if (n =? 1)%nat then
        Ok (mk_nd [m] (List.map (fun y => f (hd 0 (data a)) y) (data b)))
      else Raise (ValueError "operands could not be broadcast together")
  | _, _ => Raise (ValueError "broadcast: operand is not one-dimensional")
  end.

Definition add := broadcast Qplus.
Definition sub := broadcast Qminus.

(** [np.any(a < 0)] *)
Definition any_negative (a : ndarray) : bool :=
  existsb (fun x => Qltb x 0) (data a).

(** [np.argsort(keys)] *)
Definition argsort (keys : list Q) : list nat :=
  List.map snd (sort_by (fun p : Q * nat => fst p)
                  (combine keys (seq 0 (length keys)))).

(** [a[idx]] for an array of row numbers [idx]. *)
Definition take (a : ndarray) (idx : list nat) : ndarray :=
  match shape a with
  | [] => a
  | n :: rest =>
      let rows := chunks n (size_of rest) (data a) in
      mk_nd (length idx :: rest)
        (concat (List.map (fun i => nth i rows []) idx))
  end.

(** [np.unique(xs)]: the sorted distinct values. *)
Fixpoint dedup (xs : list Q) : list Q :=
  match xs with
  | [] => []
  | x :: xs' =>
      match xs' with
      | [] => [x]
      | y :: _ => if Qeqb x y then dedup xs' else x :: dedup xs'
      end
  end.

Definition unique (xs : list Q) : list Q := dedup (sort_by (fun x => x) xs).

(** [a[i]] read as a number, for a vector [a]. *)
Definition get (a : ndarray) (i : Z) : result Q :=
  x <- item a i ;; Ok (hd 0 (data x)).

(** [for x in a]: the sub-arrays along the first axis. *)
Definition iter (a : ndarray) : result (list ndarray) :=
  match shape a with
  | [] => Raise (TypeError "iteration over a 0-d array")
  | n :: rest =>
      Ok (List.map (mk_nd rest) (chunks n (size_of rest) (data a)))
  end.

(** Python's [min(a)] over the elements of a vector. *)
Definition min (a : ndarray) : result Q :=
  match shape a with
  | [] => Raise (TypeError "iteration over a 0-d array")
  | [_] =>
      match data a with
      | [] => Raise (ValueError "min() arg is an empty sequence")
      | x :: xs => Ok (fold_left (fun m y => if Qltb y m then y else m) xs x)
      end
  | _ => Raise (ValueError "The truth value of an array with more than one element is ambiguous")
  end.

(** [np.concatenate((a, b))] of two vectors, as at every call site. *)
Definition concatenate (a b : ndarray) : result ndarray :=
  match shape a, shape b with
  | [n], [m] => Ok (mk_nd [(n + m)%nat] (data a ++ data b))
  | _, _ => Raise (ValueError "concatenate: operand is not one-dimensional")
  end.

(** [a.sum()] *)
Definition sum (a : ndarray) : Q := fold_left Qplus (data a) 0.


End np.

(** ** Values passed for a sampling rate, metadata, indices *)

(** What a caller passes as [fs]: [None], a number, or an object on which
    [fs <= 0] raises (a list, a string, an array of several elements). *)
Inductive fs_arg : Type :=
| FsNone
| FsNum (q : Q)
| FsNonScalar.

(** The [meta] dictionary is only stored and handed on. *)
Definition pymeta : Type := option (list (string * string)).

(** [slice(start, stop)]; objects.py reads no step. *)
Record pyslice : Type := mk_slice { start : option Z; stop : option Z }.

Definition pyslice_start := start.
Definition pyslice_stop := stop.

(** [fs <= 0] *)
Definition fs_le_0 (fs : fs_arg) : result bool :=
  match fs with
  | FsNum q => Ok (Qleb q 0)
  | FsNone => Raise (TypeError "'<=' not supported between instances of 'NoneType' and 'int'")
  | FsNonScalar => Raise (TypeError "'<=' not supported between instances")
  end.

(** [a != b] on sampling rates. *)
Definition fs_ne (a b : fs_arg) : bool :=
  match a, b with
  | FsNone, FsNone => false
  | FsNum x, FsNum y => negb (Qeqb x y)
  | FsNonScalar, FsNonScalar => false
  | _, _ => true
  end.

(** Lines 53-59 and 553-559: the validation of [fs] shared by the two
    constructors.  The [raise ValueError] sits inside the [try] whose bare
    [except] turns every exception into the [TypeError]. *)
Definition check_fs (fs : fs_arg) : result unit :=
  match fs with
  | FsNone => Ok tt
  | _ =>
      try_except
        (b <- fs_le_0 fs ;;
         if b then Raise (ValueError "sampling rate must be positive") else Ok tt)
        (fun _ => Raise (TypeError "sampling rate must be a scalar"))
  end.

(** [a / fs] and [a * fs] for an array [a]. *)
Definition div_fs (a : np.ndarray) (fs : fs_arg) : result np.ndarray :=
  match fs with
  | FsNum f => Ok (np.map (fun x => x / f) a)
  | _ => Raise (TypeError "unsupported operand type(s) for /")
  end.

Definition mul_fs (a : np.ndarray) (fs : fs_arg) : result np.ndarray :=
  match fs with
  | FsNum f => Ok (np.map (fun x => x * f) a)
  | _ => Raise (TypeError "unsupported operand type(s) for *")
  end.

(** Python's [max(a, b)]. *)
Definition pymax (a b : Q) : Q := if Qltb a b then b else a.

(** A [for] loop whose body can raise. *)
Fixpoint for_each {S I : Type} (body : S -> I -> result S) (s : S) (l : list I)
  : result S :=
  match l with
  | [] => Ok s
  | i :: l' => s' <- body s i ;; for_each body s' l'
  end.

(** ** class EpochArray *)

Module EpochArray.

Record t : Type := mk {
  samples : np.ndarray;
  time : np.ndarray;
  _fs : fs_arg;
  _meta : pymeta
}.

(** Lines 37-42: what [EpochArray([])] stores. *)
Definition empty : t := mk (np.vec []) (np.vec []) FsNone None.

(** Lines 61-78: the [duration] argument. *)
Definition with_duration (samples : np.ndarray) (duration : option np.ndarray)
  : result np.ndarray :=
  match duration with
  | None => Ok samples
  | Some duration =>
      let duration := np.squeeze duration in
      let duration :=
        if (np.ndim duration =? 0)%nat then np.newaxis duration else duration in
      if (np.ndim samples =? 2)%nat && (np.ndim duration =? 1)%nat then
        Raise (ValueError "duration not allowed when using start and stop times")
      else
        n <- np.len duration ;;
        if (1 <? n)%nat && (np.ndim samples =? 1)%nat
           && negb (np.dim 0 samples =? np.dim 0 duration)%nat then
          Raise (ValueError "must have same number of time and duration samples")
        else if (np.ndim samples =? 1)%nat && (np.ndim duration =? 1)%nat then
          stop_epoch <- np.add samples duration ;;
          np.hstack (np.newaxis samples) (np.newaxis stop_epoch)
        else Ok samples
  end.

(** Lines 44-89: from the argument to an array of start/stop rows. *)
Definition normalize (samples : np.ndarray) (fs : fs_arg)
  (duration : option np.ndarray) : result np.ndarray :=
  let samples := np.squeeze samples in
  let samples :=
    if (np.ndim samples =? 0)%nat then np.newaxis samples else samples in
  if (2 <? np.ndim samples)%nat then
    Raise (ValueError "samples must be a 1D or a 2D vector")
  else
    _ <- check_fs fs ;;
    samples <- with_duration samples duration ;;
    let samples :=
      if (np.ndim samples =? 1)%nat
         && match duration with None => true | Some _ => false end
      then np.newaxis samples else samples in
    samples <-
      (if (np.ndim samples =? 2)%nat && negb (np.dim 1 samples =? 2)%nat then
         r0 <- np.item samples 0 ;;
         r1 <- np.item samples 1 ;;
         np.hstack (np.newaxis r0) (np.newaxis r1)
       else Ok samples) ;;
    c0 <- np.col samples 0 ;;
    c1 <- np.col samples 1 ;;
    if negb (np.dim 0 c0 =? np.dim 0 c1)%nat then
      Raise (ValueError "must have the same number of start and stop times")
    else Ok samples.

(** Lines 94-110: validation of the rows, sorting, time coordinates. *)
Definition finish (samples : np.ndarray) (fs : fs_arg) (meta : pymeta)
  : result t :=
  inverted <-
    (if (np.ndim samples =? 2)%nat then
       c1 <- np.col samples 1 ;;
       c0 <- np.col samples 0 ;;
       d <- np.sub c1 c0 ;;
       Ok (np.any_negative d)
     else Ok false) ;;
  if inverted then
    Raise (ValueError "start must be less than or equal to stop")
  else
    c0 <- np.col samples 0 ;;
    let sort_idx := np.argsort (np.data c0) in
    let samples := np.take samples sort_idx in
    match fs with
    | FsNone => Ok (mk samples samples fs meta)
    | _ => time <- div_fs samples fs ;; Ok (mk samples time fs meta)
    end.

Definition __init__ (samples : np.ndarray) (fs : fs_arg)
  (duration : option np.ndarray) (meta : pymeta) : result t :=
  n <- np.len samples ;;
  if (n =? 0)%nat then Ok empty
  else
    samples <- normalize samples fs duration ;;
    finish samples fs meta.

(** Properties. *)

Definition isempty (self : t) : result bool :=
  n <- np.len (time self) ;; Ok (n =? 0)%nat.

Definition meta (self : t) : pymeta := _meta self.

Definition fs (self : t) : fs_arg := _fs self.


Definition _sampleStarts (self : t) : result np.ndarray :=
  e <- isempty self ;;
  if e then Ok (np.vec []) else np.col (samples self) 0.

Definition _sampleStops (self : t) : result np.ndarray :=
  e <- isempty self ;;
  if e then Ok (np.vec []) else np.col (samples self) 1.

Definition n_epochs (self : t) : result nat :=
  e <- isempty self ;;
  if e then Ok 0%nat
  else c0 <- np.col (time self) 0 ;; np.len c0.

(** Lines 286-290. *)
Definition copy (self : t) : result t :=
  new_starts <- _sampleStarts self ;;
  new_stops <- _sampleStops self ;;
  d <- np.sub new_stops new_starts ;;
  __init__ new_starts (fs self) (Some d) (meta self).

(** Lines 355-397. *)

(** The state of the loop: [next_stop], [new_starts], [new_stops]. *)
Definition merge_body (starts stops : np.ndarray) (to_merge : list bool)
  (st : Q * list Q * list Q) (i : nat) : result (Q * list Q * list Q) :=
  let '(next_stop, new_starts, new_stops) := st in
  this_stop <- np.get stops (Z.of_nat i) ;;
  let next_stop := pymax next_stop this_stop in
  match nth_error to_merge i with
  | None => Raise (IndexError "index is out of bounds for axis 0")
  | Some true => Ok (next_stop, new_starts, new_stops)
  | Some false =>
      s <- np.get starts (Z.of_nat i + 1) ;;
      Ok (next_stop, new_starts ++ [s], new_stops ++ [next_stop])
  end.

Definition merge (self : t) (gap : Q) : result t :=
  e <- isempty self ;;
  if e then Ok self
  else if Qltb gap 0 then Raise (ValueError "gap cannot be negative")
  else
    epoch <- copy self ;;
    gap <- match fs self with
           | FsNone => Ok gap
           | FsNum f => Ok (gap * f)
           | FsNonScalar => Raise (TypeError "can't multiply sequence by non-int of type 'float'")
           end ;;
    all_stops <- _sampleStops epoch ;;
    all_starts <- _sampleStarts epoch ;;
    head_stops <- np.slice all_stops None (Some (-1)%Z) ;;
    let stops := np.map (fun x => x + gap) head_stops in
    starts <- np.slice all_starts (Some 1%Z) None ;;
    d <- np.sub stops starts ;;
    let to_merge := List.map (fun x => Qleb 0 x) (np.data d) in
    s0 <- np.get all_starts 0 ;;
    e0 <- np.get all_stops 0 ;;
    st <- for_each (merge_body all_starts all_stops to_merge)
            (e0, [s0], []) (seq 0 (np.dim 0 (time epoch) - 1)) ;;
    let '(_, new_starts, new_stops) := st in
    e_last <- np.get all_stops (-1) ;;
    let new_stops := new_stops ++ [e_last] in
    d <- np.sub (np.vec new_stops) (np.vec new_starts) ;;
    __init__ (np.vec new_starts) (fs self) (Some d) (meta self).

(** Lines 292-353. *)

(** The four tests of the inner loop, in the order of the [if]/[elif]
    chain; the result is what is appended to [new_starts] and
    [new_stops]. *)
Definition overlap (boundaries : bool) (a0 a1 b0 b1 : Q) : option (Q * Q) :=
  if (Qleb a0 b0 && Qltb b0 a1) && (Qltb a0 b1 && Qleb b1 a1) then
    Some (b0, b1)
  else if (Qltb a0 b0 && Qltb b0 a1) && (Qltb a0 b1 && Qltb a1 b1) then
    Some (b0, if boundaries then a1 else b1)
  else if (Qltb b0 a0 && Qltb b0 a1) && (Qltb a0 b1 && Qltb b1 a1) then
    Some (if boundaries then a0 else b0, b1)
  else if (Qleb b0 a0 && Qltb b0 a1) && (Qltb a0 b1 && Qleb a1 b1) then
    Some (if boundaries then a0 else b0, if boundaries then a1 else b1)
  else None.

Definition intersect_inner (boundaries : bool) (aa : np.ndarray)
  (acc : list Q * list Q) (bb : np.ndarray) : result (list Q * list Q) :=
  a0 <- np.get aa 0 ;;
  a1 <- np.get aa 1 ;;
  b0 <- np.get bb 0 ;;
  b1 <- np.get bb 1 ;;
  match overlap boundaries a0 a1 b0 b1 with
  | Some (s, e) => Ok (fst acc ++ [s], snd acc ++ [e])
  | None => Ok acc
  end.

(** The two lists collected by the double loop, after [np.unique] when
    [boundaries] is false. *)
Definition intersect_lists (epoch_a epoch_b : t) (boundaries : bool)
  : result (list Q * list Q) :=
  rows_a <- np.iter (time epoch_a) ;;
  rows_b <- np.iter (time epoch_b) ;;
  acc <- for_each
           (fun acc aa => for_each (intersect_inner boundaries aa) acc rows_b)
           ([], []) rows_a ;;
  if boundaries then Ok acc
  else Ok (np.unique (fst acc), np.unique (snd acc)).

Definition intersect (self epoch : t) (boundaries : bool) (meta : pymeta)
  : result t :=
  ea <- isempty self ;;
  eb <- (if ea then Ok true else isempty epoch) ;;
  if ea || eb then __init__ (np.vec []) FsNone (Some (np.vec [])) meta
  else
    a <- copy self ;;
    epoch_a <- merge a 0 ;;
    b <- copy epoch ;;
    epoch_b <- merge b 0 ;;
    acc <- intersect_lists epoch_a epoch_b boundaries ;;
    let '(new_starts, new_stops) := acc in
    if fs_ne (fs self) (fs epoch) then
      m <- np.hstack (np.newaxis (np.vec new_starts)) (np.newaxis (np.vec new_stops)) ;;
      __init__ m FsNone None meta
    else
      match fs self with
      | FsNone =>
          m <- np.hstack (np.newaxis (np.vec new_starts)) (np.newaxis (np.vec new_stops)) ;;
          __init__ m FsNone None meta
      | _ =>
          m <- np.hstack (np.newaxis (np.vec new_starts)) (np.newaxis (np.vec new_stops)) ;;
          m <- mul_fs m (fs self) ;;
          __init__ m (fs self) None meta
      end.



(** Lines 122-157. *)
Inductive index : Type :=
| IdxEpoch (idx : t)
| IdxInt (idx : Z)
| IdxSlice (idx : pyslice)
| IdxOther.

Definition __getitem__ (self : t) (idx : index) : result t :=
  match idx with
  | IdxEpoch idx =>
      e <- isempty idx ;;
      if e then __init__ (np.vec []) FsNone None None
      else
        epoch <-
          (if fs_ne (fs idx) (fs self) then
             m <- mul_fs (time idx) (fs self) ;;
             other <- __init__ m (fs self) None None ;;
             intersect self other true None
           else intersect self idx true None) ;;
        e <- isempty epoch ;;
        if e then __init__ (np.vec []) FsNone None None else Ok epoch
  | IdxInt idx =>
      try_except
        (r <- np.row (samples self) idx ;;
         __init__ (np.wrap r) (fs self) None (meta self))
        (fun _ => __init__ (np.vec []) FsNone None None)
  | IdxSlice idx =>
      let start := match start idx with None => 0%Z | Some z => z end in
      n <- n_epochs self ;;
      if (Z.of_nat n <=? start)%Z then __init__ (np.vec []) FsNone None None
      else
        let stop :=
          match stop idx with
          | None => (-1)%Z
          | Some z => Z.min (z - 1) (Z.of_nat n - 1)
          end in
        sub <- np.slice_rows (samples self) (Some start) (Some (stop + 1)%Z) ;;
        __init__ (np.wrap sub) (fs self) None (meta self)
  | IdxOther => Raise (TypeError "unsupported subsctipting type")
  end.

(** Lines 179-193: the setter of [fs] returns the updated object. *)
Definition set_fs (self : t) (val : fs_arg) : result t :=
  _ <- try_except (b <- fs_le_0 val ;; Ok tt)
         (fun _ => Raise (TypeError "sampling rate must be a scalar")) ;;
  b <- fs_le_0 val ;;
  if b then Raise (ValueError "sampling rate must be positive")
  else
    time <- div_fs (samples self) val ;;
    Ok (mk (samples self) time val (_meta self)).


Definition duration (self : t) : result Q :=
  e <- isempty self ;;
  if e then Ok 0
  else
    c1 <- np.col (time self) 1 ;;
    c0 <- np.col (time self) 0 ;;
    d <- np.sub c1 c0 ;;
    Ok (np.sum d).

Definition starts (self : t) : result np.ndarray :=
  e <- isempty self ;;
  if e then Ok (np.vec []) else np.col (time self) 0.

Definition start (self : t) : result np.ndarray :=
  e <- isempty self ;;
  if e then Ok (np.vec [])
  else c0 <- np.col (time self) 0 ;; np.item c0 0.

Definition _sampleStart (self : t) : result np.ndarray :=
  e <- isempty self ;;
  if e then Ok (np.vec [])
  else c0 <- np.col (samples self) 0 ;; np.item c0 0.

Definition stops (self : t) : result np.ndarray :=
  e <- isempty self ;;
  if e then Ok (np.vec []) else np.col (time self) 1.

Definition stop (self : t) : result np.ndarray :=
  e <- isempty self ;;
  if e then Ok (np.vec [])
  else c1 <- np.col (time self) 1 ;; np.item c1 (-1).

Definition _sampleStop (self : t) : result np.ndarray :=
  c0 <- np.col (samples self) 0 ;; np.item c0 0.

(** Lines 450-484. *)
Definition join (self epoch : t) (meta : pymeta) : result t :=
  e <- isempty self ;;
  if e then Ok epoch
  else
    e <- isempty epoch ;;
    if e then Ok self
    else if fs_ne (fs self) (fs epoch) then
      a0 <- np.col (time self) 0 ;;
      b0 <- np.col (time epoch) 0 ;;
      join_starts <- np.concatenate a0 b0 ;;
      a1 <- np.col (time self) 1 ;;
      b1 <- np.col (time epoch) 1 ;;
      join_stops <- np.concatenate a1 b1 ;;
      d <- np.sub join_stops join_starts ;;
      __init__ join_starts FsNone (Some d) meta
    else
      a0 <- np.col (samples self) 0 ;;
      b0 <- np.col (samples epoch) 0 ;;
      join_starts <- np.concatenate a0 b0 ;;
      a1 <- np.col (samples self) 1 ;;
      b1 <- np.col (samples epoch) 1 ;;
      join_stops <- np.concatenate a1 b1 ;;
      d <- np.sub join_stops join_starts ;;
      __init__ join_starts (fs self) (Some d) meta.

End EpochArray.

(** ** class SpikeTrain *)

Module SpikeTrain.

Record t : Type := mk {
  samples : np.ndarray;
  time : np.ndarray;
  support : EpochArray.t;
  _fs : fs_arg;
  label : option string;
  _cell_type : option string;
  _meta : pymeta
}.

(** [(time >= t_start) & (time <= t_stop)] *)
Definition within (time : np.ndarray) (t_start t_stop : Q) : list bool :=
  List.map (fun x => Qleb t_start x && Qleb x t_stop) (np.data time).

(** The loop over the rows of an epoch array's [time] that collects
    [indices]. *)
Definition masks (epochs : np.ndarray) (time : np.ndarray)
  : result (list (list bool)) :=
  rows <- np.iter epochs ;;
  for_each
    (fun acc eptime =>
       t_start <- np.get eptime 0 ;;
       t_stop <- np.get eptime 1 ;;
       Ok (acc ++ [within time t_start t_stop]))
    [] rows.

(** [np.any(np.column_stack(indices), axis=1)] for masks of [n] entries. *)
Definition any_columns (indices : list (list bool)) (n : nat)
  : result (list bool) :=
  match indices with
  | [] => Raise (ValueError "need at least one array to concatenate")
  | _ => Ok (List.map (fun j => existsb (fun m => nth j m false) indices)
               (seq 0 n))
  end.

(** [a[indices]] for a vector [a] and a boolean mask. *)
Definition select (a : np.ndarray) (indices : list bool) : np.ndarray :=
  np.vec (List.map fst (filter snd (combine (np.data a) indices))).

(** Lines 544-597.  A [label] is a string or [None], so the test of line
    561 never fails. *)
Definition __init__ (samples : np.ndarray) (fs : fs_arg)
  (support : option EpochArray.t) (label cell_type : option string)
  (meta : pymeta) : result t :=
  let samples := np.squeeze samples in
  let samples :=
    match np.shape samples with
    | [] => np.newaxis samples
    | _ => samples
    end in
  if negb (np.ndim samples =? 1)%nat then
    Raise (ValueError "samples must be a vector")
  else
    _ <- check_fs fs ;;
    time <- match fs with
            | FsNone => Ok samples
            | _ => div_fs samples fs
            end ;;
    n <- np.len samples ;;
    if (0 <? n)%nat then
      match support with
      | None =>
          last <- np.get samples (-1) ;;
          support <- EpochArray.__init__ (np.vec [0; last]) fs None None ;;
          Ok (mk samples time support fs label cell_type meta)
      | Some support =>
          indices <- masks (EpochArray.time support) time ;;
          indices <- any_columns indices (np.dim 0 time) ;;
          Ok (mk (select samples indices) (select time indices)
                support fs label cell_type meta)
      end
    else
      support <- EpochArray.__init__ (np.vec []) FsNone None None ;;
      Ok (mk samples time support fs label cell_type meta).

Definition n_spikes (self : t) : result nat := np.len (time self).

Definition isempty (self : t) : result bool :=
  n <- np.len (time self) ;; Ok (n =? 0)%nat.

Definition fs (self : t) : fs_arg := _fs self.
Definition cell_type (self : t) : option string := _cell_type self.
Definition meta (self : t) : pymeta := _meta self.

(** Lines 617-675. *)
Definition __getitem__ (self : t) (idx : EpochArray.index) : result t :=
  match idx with
  | EpochArray.IdxEpoch idx =>
      e <- EpochArray.isempty idx ;;
      if e then __init__ (np.vec []) FsNone None None None None
      else
        epoch <- EpochArray.intersect (support self) idx true None ;;
        e <- EpochArray.isempty epoch ;;
        if e then __init__ (np.vec []) FsNone None None None None
        else
          indices <- masks (EpochArray.time epoch) (time self) ;;
          indices <- any_columns indices (np.dim 0 (time self)) ;;
          __init__ (select (samples self) indices) (fs self) (Some epoch)
            (label self) (cell_type self) (meta self)
  | EpochArray.IdxInt idx =>
      match
        (x <- np.get (samples self) idx ;;
         y <- np.get (samples self) idx ;;
         EpochArray.__init__ (np.vec [x; y]) (fs self) None (meta self))
      with
      | Raise _ =>
          epoch <- EpochArray.__init__ (np.vec []) FsNone None None ;;
          __init__ (np.vec []) FsNone (Some epoch) None None None
      | Ok epoch =>
          x <- np.item (samples self) idx ;;
          __init__ x (fs self) (Some epoch)
            (label self) (cell_type self) (meta self)
      end
  | EpochArray.IdxSlice idx =>
      let start := match start idx with None => 0%Z | Some z => z end in
      n <- n_spikes self ;;
      if (Z.of_nat n <=? start)%Z then
        __init__ (np.vec []) (fs self) None
          (label self) (cell_type self) (meta self)
      else
        let stop :=
          match stop idx with
          | None => (-1)%Z
          | Some z => Z.min (z - 1) (Z.of_nat n - 1)
          end in
        x <- np.get (samples self) start ;;
        y <- np.get (samples self) stop ;;
        epoch <- EpochArray.__init__ (np.vec [x; y]) (fs self) None (meta self) ;;
        sub <- np.slice (samples self) (pyslice_start idx) (pyslice_stop idx) ;;
        __init__ sub (fs self) (Some epoch)
          (label self) (cell_type self) (meta self)
  | EpochArray.IdxOther => Raise (TypeError "unsupported subsctipting type")
  end.

(** Lines 691-705: [issorted]. *)
Definition issorted (self : t) : result bool :=
  items <- np.iter (samples self) ;;
  let xs := List.map (fun x => hd 0 (np.data x)) items in
  Ok (forallb (fun p => Qleb (fst p) (snd p)) (combine xs (tl xs))).

(** Lines 736-750: the setter of [fs] returns the updated object. *)
Definition set_fs (self : t) (val : fs_arg) : result t :=
  _ <- try_except (b <- fs_le_0 val ;; Ok tt)
         (fun _ => Raise (TypeError "sampling rate must be a scalar")) ;;
  b <- fs_le_0 val ;;
  if b then Raise (ValueError "sampling rate must be positive")
  else
    time <- div_fs (samples self) val ;;
    Ok (mk (samples self) time (support self) val (label self)
          (_cell_type self) (_meta self)).

(** Lines 752-777: [None] stands for an infinite endpoint; the mask
    [indices] is a numpy array, which [__getitem__] takes for none of
    EpochArray, int or slice. *)
Definition time_slice (self : t) (t_start t_stop : option Q) : result t :=
  let inverted :=
    match t_start, t_stop with
    | Some a, Some b => Qltb b a
    | _, _ => false
    end in
  if inverted then Raise (ValueError "t_start cannot be greater than t_stop")
  else __getitem__ self EpochArray.IdxOther.

(** Lines 779-804. *)
Definition time_slices (self : t) (t_starts t_stops : list Q) : result t :=
  if negb (length t_starts =? length t_stops)%nat then
    Raise (ValueError "must have same number of start and stop times")
  else
    let indices :=
      List.map (fun p => within (time self) (fst p) (snd p))
        (combine t_starts t_stops) in
    _ <- any_columns indices (np.dim 0 (time self)) ;;
    __getitem__ self EpochArray.IdxOther.

End SpikeTrain.

(** ** Views used in the statements *)

Open Scope Q_scope.

(** The rows of a two-column array, read off its contents. *)
Fixpoint pairs (d : list Q) : list (Q * Q) :=
  match d with
  | a :: b :: d' => (a, b) :: pairs d'
  | _ => []
  end.

(** The epochs of an epoch array in samples and in time. *)
Definition intervals (e : EpochArray.t) : list (Q * Q) :=
  pairs (np.data (EpochArray.samples e)).

Definition time_intervals (e : EpochArray.t) : list (Q * Q) :=
  pairs (np.data (EpochArray.time e)).

(** An epoch with start <= stop; the order of two epochs by their starts. *)
Definition valid (p : Q * Q) : Prop := fst p <= snd p.
Definition key_le {A : Type} (key : A -> Q) (x y : A) : Prop := key x <= key y.
Definition by_start : Q * Q -> Q * Q -> Prop := key_le fst.

(** A sampling rate that the constructors accept. *)
Definition fs_ok (fs : fs_arg) : Prop :=
  match fs with
  | FsNone => True
  | FsNum f => 0 < f
  | FsNonScalar => False
  end.

(** Time coordinates of an epoch given in samples. *)
Definition scale (fs : fs_arg) (p : Q * Q) : Q * Q :=
  match fs with
  | FsNum f => (fst p / f, snd p / f)
  | _ => p
  end.

(** The object that holds the epochs [l] at the rate [fs]. *)
Definition of_rows (l : list (Q * Q)) (fs : fs_arg) (meta : pymeta)
  : EpochArray.t :=
  EpochArray.mk (np.of_pairs l) (np.of_pairs (map (scale fs) l)) fs meta.

(** The class invariant of a non-empty epoch array. *)
Definition invariant (e : EpochArray.t) : Prop :=
  exists l, l <> [] /\ Forall valid l /\ Sorted by_start l /\
            fs_ok (EpochArray.fs e) /\
            e = of_rows l (EpochArray.fs e) (EpochArray.meta e).


(** Epochs that stay apart: no epoch starts within [gap] of the stop of an
    epoch before it. *)
Fixpoint separated (gap : Q) (l : list (Q * Q)) : Prop :=
  match l with
  | [] => True
  | p :: l' => Forall (fun q => snd p + gap < fst q) l' /\ separated gap l'
  end.

(** [samples] as the matrix of start/stop rows [l], no rate, no metadata. *)
Definition epochs (l : list (Q * Q)) : result EpochArray.t :=
  EpochArray.__init__ (np.of_pairs l) FsNone None None.




(** The statement that a spike train built without a support gets the
    single epoch from its first to its last spike. *)
Definition support_spans_spikes : Prop :=
  forall (xs : list Q) (fs : fs_arg) (st : SpikeTrain.t),
    xs <> [] ->
    SpikeTrain.__init__ (np.vec xs) fs None None None None = Ok st ->
    intervals (SpikeTrain.support st) = [(hd 0 xs, last xs 0)].




(** The time of a sample at the rate [fs]. *)
Definition tcoord (fs : fs_arg) (x : Q) : Q :=
  match fs with
  | FsNum f => x / f
  | _ => x
  end.

(** The time [t] lies in one of the epochs [T], ends included. *)
Definition in_epochs (T : list (Q * Q)) (t : Q) : bool :=
  existsb (fun p => Qleb (fst p) t && Qleb t (snd p)) T.

(** * Properties *)


(** ** The error monad *)

Lemma bind_ok {A B : Type} (c : result A) (k : A -> result B) (b : B) :
  bind c k = Ok b -> exists a, c = Ok a /\ k a = Ok b.
Proof.
  destruct c as [a|e]; simpl; intros H.
  - exists a; split; [reflexivity | exact H].
  - discriminate H.
Qed.

(** ** Comparisons *)

Lemma Qleb_true (x y : Q) : Qleb x y = true <-> x <= y.
Proof. unfold Qleb. apply Qle_bool_iff. Qed.

Lemma Qleb_false (x y : Q) : Qleb x y = false <-> y < x.
Proof.
  unfold Qleb. split; intros H.
  - apply Qnot_le_lt. intros C. apply Qle_bool_iff in C. congruence.
  - destruct (Qle_bool x y) eqn:E; [|reflexivity].
    apply Qle_bool_iff in E. exfalso. apply (Qlt_not_le _ _ H E).
Qed.

Lemma Qltb_true (x y : Q) : Qltb x y = true <-> x < y.
Proof.
  unfold Qltb. rewrite negb_true_iff. apply (Qleb_false y x).
Qed.

Lemma Qltb_false (x y : Q) : Qltb x y = false <-> y <= x.
Proof.
  unfold Qltb. rewrite negb_false_iff. apply (Qleb_true y x).
Qed.

(** ** Stable sorting *)

Section SortByFacts.
Variable A : Type.
Variable key : A -> Q.

Lemma insert_by_In (x y : A) (l : list A) :
  In y (insert_by key x l) -> y = x \/ In y l.
Proof.
  induction l as [|z l IH]; simpl.
  - intros [H|[]]; left; congruence.
  - destruct (Qleb (key x) (key z)); simpl.
    + intros [H|[H|H]]; [left; congruence | right; left; exact H | right; right; exact H].
    + intros [H|H]; [right; left; exact H|].
      destruct (IH H) as [H'|H']; [left; exact H' | right; right; exact H'].
Qed.

Lemma sort_by_In (y : A) (l : list A) : In y (sort_by key l) -> In y l.
Proof.
  induction l as [|x l IH]; simpl; [tauto|].
  intros H. apply insert_by_In in H. destruct H as [H|H]; [left; congruence|].
  right. apply IH, H.
Qed.


Lemma insert_by_length (x : A) (l : list A) :
  length (insert_by key x l) = S (length l).
Proof.
  induction l as [|z l IH]; simpl; [reflexivity|].
  destruct (Qleb (key x) (key z)); simpl; [reflexivity | now rewrite IH].
Qed.

Lemma sort_by_length (l : list A) : length (sort_by key l) = length l.
Proof.
  induction l as [|x l IH]; simpl; [reflexivity|].
  now rewrite insert_by_length, IH.
Qed.




End SortByFacts.

(** Sorting commutes with a map that keeps the keys. *)
Lemma sort_by_map {A B : Type} (kA : A -> Q) (kB : B -> Q) (g : A -> B)
  (l : list A) :
  (forall x, kB (g x) = kA x) ->
  map g (sort_by kA l) = sort_by kB (map g l).
Proof.
  intros Hk. induction l as [|x l IH]; simpl; [reflexivity|].
  rewrite <- IH. generalize (sort_by kA l). intros s.
  induction s as [|y s IHs]; simpl; [reflexivity|].
  rewrite !Hk. destruct (Qleb (kA x) (kA y)); simpl; [reflexivity|].
  now rewrite IHs.
Qed.

(** ** Arrays of start/stop rows *)

Lemma flat_length (l : list (Q * Q)) : length (np.flat l) = (length l * 2)%nat.
Proof.
  unfold np.flat. induction l as [|p l IH]; simpl; [reflexivity|].
  f_equal. f_equal. exact IH.
Qed.

Lemma of_pairs_wf (l : list (Q * Q)) : np.wf (np.of_pairs l).
Proof. unfold np.wf. simpl. rewrite flat_length. lia. Qed.

Lemma pairs_flat (l : list (Q * Q)) : pairs (np.flat l) = l.
Proof.
  unfold np.flat. induction l as [|[a b] l IH]; simpl; [reflexivity|].
  f_equal. exact IH.
Qed.



Lemma chunks_flat (l : list (Q * Q)) :
  np.chunks (length l) 2 (np.flat l) = map (fun p => [fst p; snd p]) l.
Proof.
  induction l as [|p l IH]; simpl; [reflexivity|].
  f_equal. exact IH.
Qed.

Lemma chunks_1 (xs : list Q) :
  np.chunks (length xs) 1 xs = map (fun x => [x]) xs.
Proof.
  induction xs as [|x xs IH]; simpl; [reflexivity|].
  f_equal. exact IH.
Qed.

Lemma zip_app_singletons (xs ys : list Q) :
  concat (np.zip_app (map (fun x => [x]) xs) (map (fun y => [y]) ys))
  = np.flat (combine xs ys).
Proof.
  revert ys. induction xs as [|x xs IH]; intros [|y ys]; simpl; try reflexivity.
  unfold np.flat in *. simpl. f_equal. f_equal. apply IH.
Qed.

(** Two columns of the same length, stacked side by side. *)
Lemma hstack_columns (n : nat) (xs ys : list Q) :
  length xs = n -> length ys = n ->
  np.hstack (np.newaxis (np.mk_nd [n] xs)) (np.newaxis (np.mk_nd [n] ys))
  = Ok (np.of_pairs (combine xs ys)).
Proof.
  intros Hx Hy. subst n. unfold np.hstack, np.newaxis, np.of_pairs. simpl.
  rewrite Nat.eqb_refl, length_combine, Hy, Nat.min_id.
  rewrite chunks_1. rewrite <- Hy at 2. rewrite chunks_1.
  now rewrite zip_app_singletons.
Qed.

Lemma hstack_columns_mismatch (n m : nat) (xs ys : list Q) :
  n <> m ->
  np.hstack (np.newaxis (np.mk_nd [n] xs)) (np.newaxis (np.mk_nd [m] ys))
  = Raise (ValueError "all the input array dimensions except for the concatenation axis must match exactly").
Proof.
  intros H. unfold np.hstack, np.newaxis. simpl.
  apply Nat.eqb_neq in H. now rewrite H.
Qed.

Lemma combine_fst_snd {A B : Type} (l : list (A * B)) :
  combine (map fst l) (map snd l) = l.
Proof.
  induction l as [|[a b] l IH]; simpl; [reflexivity | now rewrite IH].
Qed.

Lemma col_0_of_pairs (l : list (Q * Q)) :
  np.col (np.of_pairs l) 0 = Ok (np.mk_nd [length l] (map fst l)).
Proof.
  unfold np.col, np.of_pairs. simpl. rewrite chunks_flat.
  do 2 f_equal. induction l as [|p l IH]; simpl; [reflexivity | now rewrite IH].
Qed.

Lemma col_1_of_pairs (l : list (Q * Q)) :
  np.col (np.of_pairs l) 1 = Ok (np.mk_nd [length l] (map snd l)).
Proof.
  unfold np.col, np.of_pairs. simpl. rewrite chunks_flat.
  do 2 f_equal. induction l as [|p l IH]; simpl; [reflexivity | now rewrite IH].
Qed.

Lemma broadcast_same (f : Q -> Q -> Q) (n : nat) (xs ys : list Q) :
  np.broadcast f (np.mk_nd [n] xs) (np.mk_nd [n] ys)
  = Ok (np.mk_nd [n] (np.zip_with f xs ys)).
Proof. unfold np.broadcast. simpl. now rewrite Nat.eqb_refl. Qed.



Lemma map_of_pairs (g : Q -> Q) (l : list (Q * Q)) :
  np.map g (np.of_pairs l) = np.of_pairs (map (fun p => (g (fst p), g (snd p))) l).
Proof.
  unfold np.map, np.of_pairs. simpl. rewrite length_map. f_equal.
  unfold np.flat. induction l as [|p l IH]; simpl; [reflexivity | now rewrite IH].
Qed.

(** Gathering the rows in the order of [argsort] sorts the rows. *)
Lemma combine_seq_nth {A : Type} (d : A) (l : list A) (s : nat) (x : A * nat) :
  In x (combine l (seq s (length l))) ->
  (s <= snd x)%nat /\ (snd x - s < length l)%nat /\ nth (snd x - s) l d = fst x.
Proof.
  revert s. induction l as [|a l IH]; intros s; simpl; [tauto|].
  intros [H|H].
  - subst x. simpl. rewrite Nat.sub_diag. repeat split; lia.
  - destruct (IH _ H) as (H1 & H2 & H3).
    replace (snd x - s)%nat with (S (snd x - S s)) by lia.
    repeat split; try lia. exact H3.
Qed.

Lemma combine_map_fst_seq (l : list (Q * Q)) (s : nat) :
  combine (map fst l) (seq s (length l))
  = map (fun x : (Q * Q) * nat => (fst (fst x), snd x))
      (combine l (seq s (length l))).
Proof.
  revert s. induction l as [|p l IH]; intros s; simpl;
    [reflexivity | now rewrite IH].
Qed.

Lemma map_fst_combine_seq {A : Type} (l : list A) (s : nat) :
  l = map fst (combine l (seq s (length l))).
Proof.
  revert s. induction l as [|p l IH]; intros s; simpl;
    [reflexivity | f_equal; apply IH].
Qed.

Lemma take_argsort (l : list (Q * Q)) :
  np.take (np.of_pairs l) (np.argsort (map fst l)) = np.of_pairs (sort_by fst l).
Proof.
  unfold np.take, np.argsort, np.of_pairs. simpl.
  rewrite chunks_flat, !length_map, sort_by_length, sort_by_length.
  rewrite length_combine, length_seq, length_map, Nat.min_id.
  f_equal. unfold np.flat. f_equal.
  set (L := combine l (seq 0 (length l))).
  set (kL := fun x : (Q * Q) * nat => fst (fst x)).
  assert (E1 : combine (map fst l) (seq 0 (length l))
               = map (fun x : (Q * Q) * nat => (fst (fst x), snd x)) L)
    by apply combine_map_fst_seq.
  assert (E2 : l = map fst L) by apply map_fst_combine_seq.
  rewrite E1.
  rewrite <- (sort_by_map kL (fun p : Q * nat => fst p)
                (fun x : (Q * Q) * nat => (fst (fst x), snd x)) L)
    by reflexivity.
  assert (E3 : sort_by fst l = map fst (sort_by kL L)).
  { rewrite (sort_by_map kL fst fst L) by reflexivity. now rewrite <- E2. }
  rewrite E3.
  rewrite !map_map. simpl.
  apply map_ext_in. intros x Hx. apply sort_by_In in Hx.
  destruct (combine_seq_nth (0, 0) l 0 x Hx) as (_ & H2 & H3).
  rewrite Nat.sub_0_r in H2, H3.
  rewrite (nth_indep _ [] ((fun p : Q * Q => [fst p; snd p]) (0, 0)))
    by (rewrite length_map; exact H2).
  rewrite (map_nth (fun p : Q * Q => [fst p; snd p])). now rewrite H3.
Qed.

(** ** The constructor of EpochArray *)

Lemma check_fs_ok (fs : fs_arg) : fs_ok fs <-> check_fs fs = Ok tt.
Proof.
  destruct fs as [|f|]; simpl; split; intros H; try easy.
  - apply (Qleb_false f 0) in H. unfold check_fs, try_except. simpl. now rewrite H.
  - unfold check_fs, try_except in H. simpl in H.
    destruct (Qleb f 0) eqn:E; [discriminate H|]. now apply Qleb_false in E.
Qed.

Lemma existsb_zip_sub (l : list (Q * Q)) :
  existsb (fun x => Qltb x 0) (np.zip_with Qminus (map snd l) (map fst l))
  = existsb (fun p => Qltb (snd p - fst p) 0) l.
Proof.
  induction l as [|p l IH]; simpl; [reflexivity | now rewrite IH].
Qed.

Lemma map_scale_none (l : list (Q * Q)) : map (scale FsNone) l = l.
Proof. induction l as [|p l IH]; simpl; [reflexivity | now rewrite IH]. Qed.

Lemma ndim_of_pairs (l : list (Q * Q)) : np.ndim (np.of_pairs l) = 2%nat.
Proof. reflexivity. Qed.

Lemma dim_1_of_pairs (l : list (Q * Q)) : np.dim 1 (np.of_pairs l) = 2%nat.
Proof. reflexivity. Qed.

Lemma dim_0_of_pairs (l : list (Q * Q)) : np.dim 0 (np.of_pairs l) = length l.
Proof. reflexivity. Qed.

Lemma len_of_pairs (l : list (Q * Q)) : np.len (np.of_pairs l) = Ok (length l).
Proof. reflexivity. Qed.

Lemma ndim_vec (xs : list Q) : np.ndim (np.vec xs) = 1%nat.
Proof. reflexivity. Qed.

Lemma ndim_mk_1 (n : nat) (xs : list Q) : np.ndim (np.mk_nd [n] xs) = 1%nat.
Proof. reflexivity. Qed.

Lemma dim_0_mk_1 (n : nat) (xs : list Q) : np.dim 0 (np.mk_nd [n] xs) = n.
Proof. reflexivity. Qed.

Lemma dim_0_vec (xs : list Q) : np.dim 0 (np.vec xs) = length xs.
Proof. reflexivity. Qed.

Lemma len_vec (xs : list Q) : np.len (np.vec xs) = Ok (length xs).
Proof. reflexivity. Qed.

Create Rewrite HintDb nd.
#[local] Hint Rewrite ndim_of_pairs dim_1_of_pairs dim_0_of_pairs len_of_pairs
  ndim_vec ndim_mk_1 dim_0_mk_1 dim_0_vec len_vec
  col_0_of_pairs col_1_of_pairs Nat.eqb_refl andb_false_r andb_true_r : nd.

(** One step of evaluation of a method on arrays of known shape. *)
Ltac nd_simpl :=
  repeat (progress (autorewrite with nd;
                    cbn [Nat.eqb Nat.ltb Nat.leb andb negb orb bind]));
  cbv iota.

(** Lines 94-110 on an array of pairs. *)
Lemma finish_of_pairs (l : list (Q * Q)) (fs : fs_arg) (meta : pymeta) :
  EpochArray.finish (np.of_pairs l) fs meta =
  if existsb (fun p => Qltb (snd p - fst p) 0) l
  then Raise (ValueError "start must be less than or equal to stop")
  else match fs with
       | FsNonScalar => Raise (TypeError "unsupported operand type(s) for /")
       | _ => Ok (of_rows (sort_by fst l) fs meta)
       end.
Proof.
  unfold EpochArray.finish. nd_simpl.
  unfold np.sub. rewrite broadcast_same. cbn [bind].
  unfold np.any_negative. cbn [np.data]. rewrite existsb_zip_sub.
  destruct (existsb _ l); [reflexivity|].
  rewrite take_argsort.
  destruct fs as [|f|]; cbn [div_fs bind]; try reflexivity.
  - unfold of_rows. now rewrite map_scale_none.
  - unfold of_rows. now rewrite map_of_pairs.
Qed.

Lemma squeeze_vec (xs : list Q) :
  xs <> [] ->
  (if (np.ndim (np.squeeze (np.vec xs)) =? 0)%nat
   then np.newaxis (np.squeeze (np.vec xs)) else np.squeeze (np.vec xs))
  = np.vec xs.
Proof.
  destruct xs as [|x [|y xs]]; intros H; [congruence | reflexivity | reflexivity].
Qed.

Lemma squeeze_of_pairs (p q : Q * Q) (l : list (Q * Q)) :
  np.squeeze (np.of_pairs (p :: q :: l)) = np.of_pairs (p :: q :: l).
Proof. reflexivity. Qed.

(** Lines 44-89 on an array of start/stop pairs: a single pair is squeezed to
    a vector of two numbers and put back by the [hstack] of line 84. *)
Lemma normalize_of_pairs (l : list (Q * Q)) (fs : fs_arg) :
  l <> [] -> fs_ok fs ->
  EpochArray.normalize (np.of_pairs l) fs None = Ok (np.of_pairs l).
Proof.
  intros Hl Hfs. apply check_fs_ok in Hfs. unfold EpochArray.normalize.
  destruct l as [|p [|q l]]; [congruence| |].
  - cbn. rewrite Hfs. reflexivity.
  - rewrite squeeze_of_pairs. nd_simpl. rewrite Hfs.
    cbn [bind EpochArray.with_duration]. nd_simpl. reflexivity.
Qed.

Lemma init_of_pairs (l : list (Q * Q)) (fs : fs_arg) (meta : pymeta) :
  l <> [] -> fs_ok fs ->
  EpochArray.__init__ (np.of_pairs l) fs None meta =
  if existsb (fun p => Qltb (snd p - fst p) 0) l
  then Raise (ValueError "start must be less than or equal to stop")
  else Ok (of_rows (sort_by fst l) fs meta).
Proof.
  intros Hl Hfs. unfold EpochArray.__init__. nd_simpl.
  destruct l as [|p l]; [congruence|]. cbn [length Nat.eqb].
  rewrite normalize_of_pairs by assumption. cbn [bind].
  rewrite finish_of_pairs. destruct fs; [reflexivity | reflexivity | destruct Hfs].
Qed.



(** ** Well-formed arrays through the operations of the constructor *)















(** ** Epochs and their time coordinates *)

Lemma Qdiv_le_compat (a b f : Q) : 0 < f -> a <= b -> a / f <= b / f.
Proof.
  intros Hf Hab. unfold Qdiv. apply Qmult_le_compat_r; [exact Hab|].
  apply Qlt_le_weak, Qinv_lt_0_compat, Hf.
Qed.

Lemma Sorted_map_mono {A B : Type} (kA : A -> Q) (kB : B -> Q) (g : A -> B)
  (l : list A) :
  (forall x y, kA x <= kA y -> kB (g x) <= kB (g y)) ->
  Sorted (key_le kA) l -> Sorted (key_le kB) (map g l).
Proof.
  intros Hk. induction 1 as [|x l Hs IH Hd]; simpl; constructor; [exact IH|].
  destruct Hd as [|y l Hxy]; simpl; constructor. apply Hk, Hxy.
Qed.

Lemma scale_sorted (fs : fs_arg) (l : list (Q * Q)) :
  fs_ok fs -> Sorted by_start l -> Sorted by_start (map (scale fs) l).
Proof.
  intros Hfs. apply Sorted_map_mono. intros x y Hxy.
  destruct fs as [|f|]; simpl; [exact Hxy | | destruct Hfs].
  now apply Qdiv_le_compat.
Qed.


Lemma intervals_of_rows (l : list (Q * Q)) (fs : fs_arg) (meta : pymeta) :
  intervals (of_rows l fs meta) = l.
Proof. apply pairs_flat. Qed.

Lemma time_intervals_of_rows (l : list (Q * Q)) (fs : fs_arg) (meta : pymeta) :
  time_intervals (of_rows l fs meta) = map (scale fs) l.
Proof. apply pairs_flat. Qed.








(** ** merge *)

(** C1: on the epochs [0,10], [1,2], [5,6] the result of [merge(0)] keeps
    [5,6] beside [0,10], so it overlaps, and merging it again gives the
    single epoch [0,6]: [merge] is not idempotent there. *)
Theorem C1_merge_overlapping_not_idempotent :
  exists x m mm,
    epochs [(0, 10); (1, 2); (5, 6)] = Ok x /\
    EpochArray.merge x 0 = Ok m /\
    EpochArray.merge m 0 = Ok mm /\
    intervals m = [(0, 10); (5, 6)] /\
    intervals mm = [(0, 6)] /\
    ~ separated 0 (intervals m) /\
    intervals mm <> intervals m.
Proof.
  eexists. eexists. eexists.
  split; [vm_compute; reflexivity|].
  split; [vm_compute; reflexivity|].
  split; [vm_compute; reflexivity|].
  split; [reflexivity|]. split; [reflexivity|]. split.
  - cbn. intros [H _]. inversion H as [|? ? H1 _]; subst.
    simpl in H1. revert H1. apply Qle_not_lt. discriminate.
  - cbn. discriminate.
Qed.

(** ** The constructor on a vector of starts *)

(** C2: a vector of starts without a duration is not read as one point epoch
    per start: one start raises the IndexError of [samples[1]] at line 85,
    three starts give the single epoch made of the first two. *)
Theorem C2_vector_of_starts :
  EpochArray.__init__ (np.vec [7]) FsNone None None
  = Raise (IndexError "index is out of bounds for axis 0")
  /\ exists e,
      EpochArray.__init__ (np.vec [1; 2; 3]) FsNone None None = Ok e
      /\ intervals e = [(1, 2)]
      /\ intervals e <> [(1, 1); (2, 2); (3, 3)].
Proof.
  split; [reflexivity|].
  eexists. split; [vm_compute; reflexivity|].
  split; [reflexivity | cbn; discriminate].
Qed.

(** With two starts or more the constructor keeps the first two numbers as
    the start and the stop of a single epoch. *)
Lemma init_vector_of_starts_cases (s0 s1 : Q) (rest : list Q) (fs : fs_arg)
  (meta : pymeta) :
  fs_ok fs ->
  EpochArray.__init__ (np.vec (s0 :: s1 :: rest)) fs None meta
  = if Qltb (s1 - s0) 0
    then Raise (ValueError "start must be less than or equal to stop")
    else Ok (of_rows [(s0, s1)] fs meta).
Proof.
  intros Hfs. pose proof (proj1 (check_fs_ok fs) Hfs) as Hc.
  set (v := np.vec (s0 :: s1 :: rest)).
  unfold EpochArray.__init__.
  change (np.len v) with (@Ok nat (S (S (length rest)))). cbn [bind Nat.eqb].
  assert (Hsq : (if (np.ndim (np.squeeze v) =? 0)%nat
                 then np.newaxis (np.squeeze v) else np.squeeze v) = v)
    by (apply squeeze_vec; discriminate).
  unfold EpochArray.normalize. rewrite !Hsq.
  change (2 <? np.ndim v)%nat with false. cbv iota.
  rewrite Hc. cbn [bind EpochArray.with_duration].
  change (np.ndim v =? 1)%nat with true. cbn [andb].
  assert (E0 : np.item (np.newaxis v) 0 = Ok (np.mk_nd [1%nat] [s0])).
  { unfold np.item, np.norm_index. cbn [np.shape np.newaxis v np.vec app length].
    replace ((- Z.of_nat (S (S (length rest))) <=? 0)%Z
             && (0 <? Z.of_nat (S (S (length rest))))%Z) with true; [reflexivity|].
    symmetry. apply andb_true_iff. split; [apply Z.leb_le | apply Z.ltb_lt]; lia. }
  assert (E1 : np.item (np.newaxis v) 1 = Ok (np.mk_nd [1%nat] [s1])).
  { unfold np.item, np.norm_index. cbn [np.shape np.newaxis v np.vec app length].
    replace ((- Z.of_nat (S (S (length rest))) <=? 1)%Z
             && (1 <? Z.of_nat (S (S (length rest))))%Z) with true; [reflexivity|].
    symmetry. apply andb_true_iff. split; [apply Z.leb_le | apply Z.ltb_lt]; lia. }
  change (np.ndim (np.newaxis v) =? 2)%nat with true.
  change (np.dim 1 (np.newaxis v) =? 2)%nat with false.
  cbn [andb negb]. rewrite E0, E1. cbn [bind].
  rewrite (@hstack_columns 1%nat [s0] [s1] eq_refl eq_refl). cbn [combine bind].
  nd_simpl. cbn [length Nat.eqb negb].
  rewrite finish_of_pairs. cbn [existsb orb snd fst]. rewrite orb_false_r.
  destruct (Qltb (s1 - s0) 0); [reflexivity|].
  destruct fs; [reflexivity | reflexivity | destruct Hfs].
Qed.

Lemma init_vector_of_starts (s0 s1 : Q) (rest : list Q) (fs : fs_arg)
  (meta : pymeta) :
  fs_ok fs -> s0 <= s1 ->
  EpochArray.__init__ (np.vec (s0 :: s1 :: rest)) fs None meta
  = Ok (of_rows [(s0, s1)] fs meta).
Proof.
  intros Hfs Hle. rewrite init_vector_of_starts_cases by assumption.
  replace (Qltb (s1 - s0) 0) with false; [reflexivity|].
  symmetry. apply Qltb_false. lra.
Qed.

(** ** The validation of the sampling rate *)

Lemma check_fs_nonpositive (q : Q) :
  q <= 0 -> check_fs (FsNum q) = Raise (TypeError "sampling rate must be a scalar").
Proof.
  intros H. apply (Qleb_true q 0) in H. unfold check_fs, try_except. simpl.
  now rewrite H.
Qed.

(** C3: a non-positive rate does not raise a ValueError: the bare [except]
    of line 57 catches it, and both constructors raise for it the very
    TypeError that they raise for a rate that is not a scalar. *)
Theorem C3_rate_errors_coincide (q : Q) :
  q <= 0 ->
  check_fs (FsNum q) = Raise (TypeError "sampling rate must be a scalar")
  /\ check_fs FsNonScalar = Raise (TypeError "sampling rate must be a scalar")
  /\ (forall samples duration meta,
        EpochArray.__init__ samples (FsNum q) duration meta
        = EpochArray.__init__ samples FsNonScalar duration meta)
  /\ (forall samples support label cell_type meta,
        SpikeTrain.__init__ samples (FsNum q) support label cell_type meta
        = SpikeTrain.__init__ samples FsNonScalar support label cell_type meta).
Proof.
  intros Hq. pose proof (check_fs_nonpositive Hq) as Hc.
  split; [exact Hc|]. split; [reflexivity|]. split.
  - intros samples duration meta. unfold EpochArray.__init__.
    destruct (np.len samples) as [n|]; [|reflexivity]. cbn [bind].
    destruct (n =? 0)%nat; [reflexivity|].
    unfold EpochArray.normalize. rewrite Hc.
    destruct (2 <? _)%nat; reflexivity.
  - intros samples support label cell_type meta. unfold SpikeTrain.__init__.
    rewrite Hc. destruct (negb _); reflexivity.
Qed.

Lemma C3_witness :
  -1 <= 0 /\
  EpochArray.__init__ (np.vec [1; 2]) (FsNum (-1)) None None
  = EpochArray.__init__ (np.vec [1; 2]) FsNonScalar None None.
Proof.
  split; [discriminate|].
  apply (proj1 (proj2 (proj2 (@C3_rate_errors_coincide (-1) ltac:(discriminate))))).
Defined.

(** ** Indexing by a slice *)

(** C5: a slice without a stop selects nothing: [stop = -1] makes the range
    [samples[start:0, :]], so [s[1:]] of three epochs is empty, while the
    same slice with its stop written out, [s[1:3]], gives the last two. *)
Theorem C5_slice_without_stop_is_empty :
  exists s e e',
    epochs [(0, 1); (2, 3); (4, 5)] = Ok s /\
    EpochArray.__getitem__ s (EpochArray.IdxSlice (mk_slice (Some 1%Z) None)) = Ok e /\
    intervals e = [] /\ EpochArray.isempty e = Ok true /\
    EpochArray.__getitem__ s (EpochArray.IdxSlice (mk_slice (Some 1%Z) (Some 3%Z))) = Ok e' /\
    intervals e' = [(2, 3); (4, 5)].
Proof.
  eexists. eexists. eexists.
  split; [vm_compute; reflexivity|].
  split; [vm_compute; reflexivity|].
  split; [reflexivity|]. split; [reflexivity|].
  split; [vm_compute; reflexivity | reflexivity].
Qed.

(** ** intersect *)

(** C6: for A = [[0,10]] and B = [[5,15]], [A.intersect(B)] is [[5,10]];
    with [boundaries=False] the loop collects the start 5 and the stop 15
    and the result is [[5,15]]. *)
Theorem C6_intersect_example :
  exists A B a b,
    epochs [(0, 10)] = Ok A /\ epochs [(5, 15)] = Ok B /\
    EpochArray.intersect A B true None = Ok (of_rows [(5, 10)] FsNone None) /\
    (c <- EpochArray.copy A ;; EpochArray.merge c 0) = Ok a /\
    (c <- EpochArray.copy B ;; EpochArray.merge c 0) = Ok b /\
    EpochArray.intersect_lists a b true = Ok ([5], [10]) /\
    EpochArray.intersect_lists a b false = Ok ([5], [15]) /\
    EpochArray.intersect A B false None = Ok (of_rows [(5, 15)] FsNone None).
Proof.
  eexists. eexists. eexists. eexists.
  split; [vm_compute; reflexivity|].
  split; [vm_compute; reflexivity|].
  split; [vm_compute; reflexivity|].
  split; [vm_compute; reflexivity|].
  split; [vm_compute; reflexivity|].
  split; [vm_compute; reflexivity|].
  split; [vm_compute; reflexivity|].
  vm_compute; reflexivity.
Qed.

(** ** Properties of a non-empty epoch array *)



Section NonEmpty.
Variable l : list (Q * Q).
Variable fs : fs_arg.
Variable meta : pymeta.
Hypothesis Hl : l <> [].

Let e := of_rows l fs meta.

Lemma isempty_of_rows : EpochArray.isempty e = Ok false.
Proof.
  unfold EpochArray.isempty, e, of_rows. cbn [EpochArray.time].
  rewrite len_of_pairs, length_map. cbn [bind].
  destruct l; [congruence | reflexivity].
Qed.

Lemma n_epochs_of_rows : EpochArray.n_epochs e = Ok (length l).
Proof.
  unfold EpochArray.n_epochs. rewrite isempty_of_rows. cbn [bind].
  unfold e, of_rows. cbn [EpochArray.time]. rewrite col_0_of_pairs.
  cbn [bind]. unfold np.len. cbn [np.shape]. now rewrite length_map.
Qed.



End NonEmpty.

(** ** copy *)






(** ** expand and shrink *)







Section Resize.
Variable l : list (Q * Q).
Variable fs : fs_arg.
Hypothesis Hl : l <> [].

Let T := map (scale fs) l.




End Resize.






(** ** Indexing out of range *)

Lemma norm_index_out_of_range (n : nat) (i : Z) :
  (i < - Z.of_nat n \/ Z.of_nat n <= i)%Z -> np.norm_index n i = None.
Proof.
  intros H. unfold np.norm_index.
  destruct ((- Z.of_nat n <=? i)%Z && (i <? Z.of_nat n)%Z) eqn:E; [|reflexivity].
  apply andb_true_iff in E. destruct E as [E1 E2].
  apply Z.leb_le in E1. apply Z.ltb_lt in E2. lia.
Qed.

(** The number of epochs is the number of rows of [samples], when the two
    coordinate arrays have the same shape. *)
Lemma n_epochs_rows (e : EpochArray.t) (n : nat) :
  np.shape (EpochArray.time e) = np.shape (EpochArray.samples e) ->
  EpochArray.n_epochs e = Ok n ->
  exists rest, np.shape (EpochArray.samples e) = n :: rest.
Proof.
  unfold EpochArray.n_epochs, EpochArray.isempty, np.len, np.col.
  intros <-. destruct (np.shape (EpochArray.time e)) as [|r rest]; simpl;
    [discriminate|].
  destruct (r =? 0)%nat eqn:E.
  - apply Nat.eqb_eq in E. subst r. intros H. injection H as <-. now exists rest.
  - destruct rest as [|c rest]; simpl; [discriminate|].
    destruct (0 <? c)%nat; simpl; [|discriminate].
    intros H. injection H as <-. now exists (c :: rest).
Qed.

Lemma getitem_int_out_of_range (e : EpochArray.t) (n : nat) (i : Z) :
  np.shape (EpochArray.time e) = np.shape (EpochArray.samples e) ->
  EpochArray.n_epochs e = Ok n ->
  (i < - Z.of_nat n \/ Z.of_nat n <= i)%Z ->
  EpochArray.__getitem__ e (EpochArray.IdxInt i) = Ok EpochArray.empty.
Proof.
  intros Hshape Hn Hi. destruct (n_epochs_rows e Hshape Hn) as [rest Hrest].
  unfold EpochArray.__getitem__, np.row, np.item.
  destruct (np.ndim (EpochArray.samples e) <? 2)%nat; [reflexivity|].
  rewrite Hrest, norm_index_out_of_range by assumption. reflexivity.
Qed.

Lemma spiketrain_slice_out_of_range (st : SpikeTrain.t) (n : nat) (s : pyslice) :
  fs_ok (SpikeTrain.fs st) -> SpikeTrain.n_spikes st = Ok n ->
  (Z.of_nat n <= match start s with None => 0 | Some z => z end)%Z ->
  SpikeTrain.__getitem__ st (EpochArray.IdxSlice s)
  = Ok (SpikeTrain.mk (np.vec []) (np.vec []) EpochArray.empty
          (SpikeTrain.fs st) (SpikeTrain.label st) (SpikeTrain.cell_type st)
          (SpikeTrain.meta st)).
Proof.
  intros Hfs Hn Hs. unfold SpikeTrain.__getitem__. rewrite Hn. cbn [bind].
  apply Z.leb_le in Hs. rewrite Hs.
  unfold SpikeTrain.__init__.
  change (np.squeeze (np.vec [])) with (np.vec []).
  cbn [np.shape np.vec length np.ndim Nat.eqb negb].
  apply check_fs_ok in Hfs. rewrite Hfs. cbn [bind].
  destruct (SpikeTrain.fs st); [reflexivity | reflexivity | discriminate Hfs].
Qed.

(** The constructor of SpikeTrain keeps a rate it has accepted and a vector
    of times. *)
Lemma spiketrain_init_ok (samples : np.ndarray) (fs : fs_arg)
  (support : option EpochArray.t) (label cell_type : option string)
  (meta : pymeta) (st : SpikeTrain.t) :
  SpikeTrain.__init__ samples fs support label cell_type meta = Ok st ->
  fs_ok (SpikeTrain.fs st).
Proof.
  unfold SpikeTrain.__init__. destruct (negb _); [discriminate|].
  intros H. apply bind_ok in H. destruct H as ([] & Hfs & H).
  apply check_fs_ok in Hfs.
  apply bind_ok in H. destruct H as (time & _ & H).
  apply bind_ok in H. destruct H as (n & _ & H).
  destruct (0 <? n)%nat.
  - destruct support as [sup|].
    + apply bind_ok in H. destruct H as (i1 & _ & H).
      apply bind_ok in H. destruct H as (i2 & _ & H).
      injection H as <-. exact Hfs.
    + apply bind_ok in H. destruct H as (x & _ & H).
      apply bind_ok in H. destruct H as (sup & _ & H).
      injection H as <-. exact Hfs.
  - apply bind_ok in H. destruct H as (sup & _ & H).
    injection H as <-. exact Hfs.
Qed.

(** C8: an integer index outside [-n, n) on an epoch array of [n] epochs
    returns the empty epoch array, and a slice whose start is at or beyond
    the number of spikes returns an empty spike train with an empty
    support; neither raises. *)
Theorem C8_out_of_range_is_empty :
  (forall e n i,
      np.shape (EpochArray.time e) = np.shape (EpochArray.samples e) ->
      EpochArray.n_epochs e = Ok n ->
      (i < - Z.of_nat n \/ Z.of_nat n <= i)%Z ->
      EpochArray.__getitem__ e (EpochArray.IdxInt i) = Ok EpochArray.empty
      /\ EpochArray.isempty EpochArray.empty = Ok true)
  /\
  (forall st n s,
      fs_ok (SpikeTrain.fs st) -> SpikeTrain.n_spikes st = Ok n ->
      (Z.of_nat n <= match start s with None => 0 | Some z => z end)%Z ->
      exists st',
        SpikeTrain.__getitem__ st (EpochArray.IdxSlice s) = Ok st' /\
        SpikeTrain.isempty st' = Ok true /\
        SpikeTrain.samples st' = np.vec [] /\
        SpikeTrain.support st' = EpochArray.empty).
Proof.
  split.
  - intros e n i Hshape Hn Hi. split; [|reflexivity].
    now apply getitem_int_out_of_range with (n := n).
  - intros st n s Hfs Hn Hs. eexists. split.
    + now apply spiketrain_slice_out_of_range with (n := n).
    + repeat split.
Qed.

Lemma C8_witness :
  (exists e,
      epochs [(0, 1); (2, 3); (4, 5)] = Ok e /\
      EpochArray.__getitem__ e (EpochArray.IdxInt 999) = Ok EpochArray.empty)
  /\
  (exists st st',
      SpikeTrain.__init__ (np.vec [1; 2; 3; 4; 5]) FsNone None None None None = Ok st /\
      SpikeTrain.__getitem__ st
        (EpochArray.IdxSlice (mk_slice (Some 100%Z) (Some 200%Z))) = Ok st' /\
      SpikeTrain.isempty st' = Ok true).
Proof.
  split.
  - eexists. split; [vm_compute; reflexivity|].
    apply (proj1 C8_out_of_range_is_empty _ 3%nat 999%Z).
    + reflexivity.
    + reflexivity.
    + right. cbv. discriminate.
  - eexists.
    destruct (proj2 C8_out_of_range_is_empty
                (SpikeTrain.mk (np.vec [1; 2; 3; 4; 5]) (np.vec [1; 2; 3; 4; 5])
                   (of_rows [(0, 5)] FsNone None) FsNone None None None)
                5%nat (mk_slice (Some 100%Z) (Some 200%Z)))
      as (st' & H1 & H2 & _).
    + exact I.
    + reflexivity.
    + cbv. discriminate.
    + exists st'. split; [vm_compute; reflexivity|]. split; assumption.
Defined.

(** ** The default support of a spike train *)

Lemma hd_last (xs : list Q) :
  xs <> [] -> hd 0 (firstn 1 (skipn (length xs - 1) xs)) = last xs 0.
Proof.
  induction xs as [|x xs IH]; [congruence|]. intros _.
  destruct xs as [|y xs]; [reflexivity|].
  specialize (IH ltac:(discriminate)). simpl length in *.
  replace (S (S (length xs)) - 1)%nat with (S (length xs)) by lia.
  replace (S (length xs) - 1)%nat with (length xs) in IH by lia.
  change (skipn (S (length xs)) (x :: y :: xs)) with (skipn (length xs) (y :: xs)).
  rewrite IH. reflexivity.
Qed.

(** [samples[-1]] of a non-empty vector. *)
Lemma get_last (xs : list Q) :
  xs <> [] -> np.get (np.vec xs) (-1) = Ok (last xs 0).
Proof.
  intros Hx. unfold np.get, np.item, np.norm_index. cbn [np.shape np.vec].
  assert (Hn : (0 < length xs)%nat) by (destruct xs; [congruence | simpl; lia]).
  replace ((- Z.of_nat (length xs) <=? -1)%Z && (-1 <? Z.of_nat (length xs))%Z)
    with true
    by (symmetry; apply andb_true_iff; split;
        [apply Z.leb_le | apply Z.ltb_lt]; lia).
  cbn [bind np.data np.size_of fold_right Z.ltb Z.compare].
  replace (Z.to_nat (-1 + Z.of_nat (length xs)) * 1)%nat
    with (length xs - 1)%nat by lia.
  now rewrite hd_last.
Qed.

Lemma spiketrain_squeeze_vec (xs : list Q) :
  xs <> [] ->
  match np.shape (np.squeeze (np.vec xs)) with
  | [] => np.newaxis (np.squeeze (np.vec xs))
  | _ :: _ => np.squeeze (np.vec xs)
  end = np.vec xs.
Proof.
  destruct xs as [|x [|y xs]]; intros H; [congruence | reflexivity | reflexivity].
Qed.

(** Lines 544-597 without a support: the support is built from 0 and the
    last sample. *)
Lemma spiketrain_default_support (xs : list Q) (fs : fs_arg)
  (label cell_type : option string) (meta : pymeta) :
  xs <> [] -> fs_ok fs ->
  SpikeTrain.__init__ (np.vec xs) fs None label cell_type meta
  = (time <- match fs with FsNone => Ok (np.vec xs) | _ => div_fs (np.vec xs) fs end ;;
     if Qltb (last xs 0 - 0) 0
     then Raise (ValueError "start must be less than or equal to stop")
     else Ok (SpikeTrain.mk (np.vec xs) time (of_rows [(0, last xs 0)] fs None)
                fs label cell_type meta)).
Proof.
  intros Hx Hfs. unfold SpikeTrain.__init__.
  rewrite spiketrain_squeeze_vec by assumption.
  rewrite ndim_vec. cbn [Nat.eqb negb].
  rewrite (proj1 (check_fs_ok fs) Hfs). cbn [bind].
  destruct (match fs with FsNone => Ok (np.vec xs) | _ => div_fs (np.vec xs) fs end)
    as [time|]; [|reflexivity].
  cbn [bind]. rewrite len_vec. cbn [bind].
  replace (0 <? length xs)%nat with true
    by (symmetry; apply Nat.ltb_lt; destruct xs; [congruence | simpl; lia]).
  rewrite get_last by assumption. cbn [bind].
  rewrite init_vector_of_starts_cases by assumption.
  destruct (Qltb (last xs 0 - 0) 0); reflexivity.
Qed.

(** C4 as the specification states it fails: the spikes 3 and 5 get the
    support [0,5], not [3,5]. *)
Lemma C4_counterexample : ~ support_spans_spikes.
Proof.
  intros H.
  specialize (H [3; 5] FsNone
                (SpikeTrain.mk (np.vec [3; 5]) (np.vec [3; 5])
                   (of_rows [(0, 5)] FsNone None) FsNone None None None)).
  assert (E : [(0, 5)] = [(3, 5)]).
  { apply H; [discriminate | reflexivity]. }
  discriminate E.
Qed.

(** C4, amended: a non-empty spike train built without a support, with an
    accepted rate and a last spike that is not negative, gets as support the
    single epoch from 0 to its last spike, as the docstring of the class
    says; with a negative last spike the constructor raises the ValueError
    of line 95. *)
Theorem C4_default_support_from_zero (xs : list Q) (fs : fs_arg)
  (label cell_type : option string) (meta : pymeta) :
  xs <> [] -> fs_ok fs ->
  (0 <= last xs 0 ->
   exists st,
     SpikeTrain.__init__ (np.vec xs) fs None label cell_type meta = Ok st /\
     SpikeTrain.samples st = np.vec xs /\
     SpikeTrain.support st = of_rows [(0, last xs 0)] fs None /\
     intervals (SpikeTrain.support st) = [(0, last xs 0)])
  /\
  (last xs 0 < 0 ->
   SpikeTrain.__init__ (np.vec xs) fs None label cell_type meta
   = Raise (ValueError "start must be less than or equal to stop")).
Proof.
  intros Hx Hfs. rewrite spiketrain_default_support by assumption.
  assert (Ht : exists time,
             match fs with FsNone => Ok (np.vec xs) | _ => div_fs (np.vec xs) fs end
             = Ok time).
  { destruct fs; [eexists; reflexivity | eexists; reflexivity | destruct Hfs]. }
  destruct Ht as [time ->]. cbn [bind]. split; intros H.
  - replace (Qltb (last xs 0 - 0) 0) with false
      by (symmetry; apply Qltb_false; lra).
    eexists. repeat split.
  - replace (Qltb (last xs 0 - 0) 0) with true
      by (symmetry; apply Qltb_true; lra).
    reflexivity.
Qed.

Lemma C4_witness :
  exists st,
    SpikeTrain.__init__ (np.vec [3; 5]) (FsNum 2) None None None None = Ok st /\
    SpikeTrain.samples st = np.vec [3; 5] /\
    SpikeTrain.support st = of_rows [(0, 5)] (FsNum 2) None /\
    intervals (SpikeTrain.support st) = [(0, 5)].
Proof.
  apply (proj1 (@C4_default_support_from_zero [3; 5] (FsNum 2) None None None
                  ltac:(discriminate) ltac:(reflexivity))).
  discriminate.
Defined.

(** ** A slice without a stop *)

(** Whatever its start, [e[start:]] holds no epoch. *)
Lemma slice_without_stop_empty (e : EpochArray.t) (s : option Z) :
  invariant e ->
  exists e',
    EpochArray.__getitem__ e (EpochArray.IdxSlice (mk_slice s None)) = Ok e' /\
    EpochArray.isempty e' = Ok true /\ intervals e' = [].
Proof.
  intros (l & Hl & _ & _ & Hfs & He).
  set (fs := EpochArray.fs e) in *. set (meta := EpochArray.meta e) in *.
  rewrite He. unfold EpochArray.__getitem__.
  rewrite n_epochs_of_rows by assumption. cbn [bind start stop].
  destruct (Z.of_nat (length l) <=? _)%Z.
  - eexists. split; [reflexivity|]. split; reflexivity.
  - change (EpochArray.samples (of_rows l fs meta)) with (np.of_pairs l).
    change (EpochArray.fs (of_rows l fs meta)) with fs.
    change (EpochArray.meta (of_rows l fs meta)) with meta.
    unfold np.slice_rows, np.slice. cbn [np.ndim np.of_pairs np.shape length Nat.ltb Nat.leb].
    change (np.clamp (length l) (length l) (Some (-1 + 1)%Z)) with 0%nat.
    cbn [Nat.sub Nat.mul firstn bind].
    apply check_fs_ok in Hfs.
    unfold EpochArray.__init__, EpochArray.normalize.
    cbn [np.len np.wrap np.shape bind Nat.eqb np.squeeze filter negb np.data
           np.ndim length Nat.ltb Nat.leb].
    rewrite Hfs. 
    destruct fs; [| | discriminate Hfs];
      (eexists; split; [reflexivity|]; split; reflexivity).
Qed.

(** * Further properties of the constructor *)










Lemma ndim_duration_vec (durs : list Q) :
  np.ndim (if (np.ndim (np.squeeze (np.vec durs)) =? 0)%nat
           then np.newaxis (np.squeeze (np.vec durs))
           else np.squeeze (np.vec durs)) = 1%nat.
Proof. destruct durs as [|x [|y durs]]; reflexivity. Qed.

(** X4: a vector of two durations or more whose length differs from the
    number of starts is rejected with the ValueError of line 72; a duration
    given with a matrix of two rows or more is rejected with the ValueError
    of line 67; a matrix of a single row is squeezed to a vector before
    that test, so with a duration it is read as two starts. *)
Theorem X4_duration_errors (fs : fs_arg) (meta : pymeta) :
  fs_ok fs ->
  (forall starts durs,
      starts <> [] -> (2 <= length durs)%nat -> length durs <> length starts ->
      EpochArray.__init__ (np.vec starts) fs (Some (np.vec durs)) meta
      = Raise (ValueError "must have same number of time and duration samples"))
  /\
  (forall p q l durs,
      EpochArray.__init__ (np.of_pairs (p :: q :: l)) fs (Some (np.vec durs)) meta
      = Raise (ValueError "duration not allowed when using start and stop times"))
  /\
  (forall a b duration,
      EpochArray.__init__ (np.of_pairs [(a, b)]) fs duration meta
      = EpochArray.__init__ (np.vec [a; b]) fs duration meta).
Proof.
  intros Hfs. pose proof (proj1 (check_fs_ok fs) Hfs) as Hc.
  split; [|split].
  - intros starts durs Hs Hm Hne.
    assert (Hd : durs <> []) by (destruct durs; [simpl in Hm; lia | discriminate]).
    unfold EpochArray.__init__. nd_simpl.
    destruct starts as [|s starts]; [congruence|]. cbn [length Nat.eqb].
    unfold EpochArray.normalize. rewrite squeeze_vec by discriminate.
    nd_simpl. rewrite Hc. cbn [bind]. unfold EpochArray.with_duration.
    rewrite squeeze_vec by assumption. nd_simpl.
    replace (length (s :: starts) =? length durs)%nat with false
      by (symmetry; apply Nat.eqb_neq; congruence).
    destruct durs as [|d1 [|d2 durs]]; simpl in Hm; try lia. reflexivity.
  - intros p q l durs. unfold EpochArray.__init__. nd_simpl.
    cbn [length Nat.eqb]. unfold EpochArray.normalize.
    rewrite squeeze_of_pairs. nd_simpl. rewrite Hc. cbn [bind].
    unfold EpochArray.with_duration. rewrite ndim_duration_vec. nd_simpl.
    reflexivity.
  - intros a b duration. reflexivity.
Qed.

Lemma X4_witness :
  EpochArray.__init__ (np.vec [1; 2; 3]) FsNone (Some (np.vec [1; 1])) None
  = Raise (ValueError "must have same number of time and duration samples")
  /\ EpochArray.__init__ (np.of_pairs [(0, 1); (2, 3)]) FsNone (Some (np.vec [1])) None
     = Raise (ValueError "duration not allowed when using start and stop times").
Proof.
  split.
  - apply (proj1 (@X4_duration_errors FsNone None I)).
    + discriminate.
    + simpl. lia.
    + discriminate.
  - apply (proj1 (proj2 (@X4_duration_errors FsNone None I))).
Defined.

(** * The setter of the sampling rate *)

(** X5: the setters of [fs] tell the two failures apart: a value on which
    [val <= 0] raises (None, a list, a string) gives the TypeError, a number
    that is not positive gives the ValueError. *)
Theorem X5_set_fs_errors (e : EpochArray.t) (st : SpikeTrain.t) (q : Q) :
  q <= 0 ->
  EpochArray.set_fs e (FsNum q) = Raise (ValueError "sampling rate must be positive") /\
  EpochArray.set_fs e FsNonScalar = Raise (TypeError "sampling rate must be a scalar") /\
  EpochArray.set_fs e FsNone = Raise (TypeError "sampling rate must be a scalar") /\
  SpikeTrain.set_fs st (FsNum q) = Raise (ValueError "sampling rate must be positive") /\
  SpikeTrain.set_fs st FsNonScalar = Raise (TypeError "sampling rate must be a scalar") /\
  SpikeTrain.set_fs st FsNone = Raise (TypeError "sampling rate must be a scalar").
Proof.
  intros Hq. apply (Qleb_true q 0) in Hq.
  unfold EpochArray.set_fs, SpikeTrain.set_fs, try_except. simpl.
  rewrite Hq. repeat split.
Qed.

Lemma X5_witness :
  EpochArray.set_fs EpochArray.empty (FsNum 0)
  = Raise (ValueError "sampling rate must be positive").
Proof.
  apply (@X5_set_fs_errors EpochArray.empty
           (SpikeTrain.mk (np.vec []) (np.vec []) EpochArray.empty FsNone
              None None None) 0).
  discriminate.
Defined.



(** * Durations, bounds and centers *)




Lemma firstn_last (xs : list Q) :
  xs <> [] -> firstn 1 (skipn (length xs - 1) xs) = [last xs 0].
Proof.
  induction xs as [|x xs IH]; [congruence|]. intros _.
  destruct xs as [|y xs]; [reflexivity|].
  specialize (IH ltac:(discriminate)). simpl length in *.
  replace (S (S (length xs)) - 1)%nat with (S (length xs)) by lia.
  replace (S (length xs) - 1)%nat with (length xs) in IH by lia.
  change (skipn (S (length xs)) (x :: y :: xs)) with (skipn (length xs) (y :: xs)).
  rewrite IH. reflexivity.
Qed.

Lemma item_last (xs : list Q) :
  xs <> [] ->
  np.item (np.mk_nd [length xs] xs) (-1) = Ok (np.scalar (last xs 0)).
Proof.
  intros Hx. unfold np.item, np.norm_index. cbn [np.shape].
  assert (Hn : (0 < length xs)%nat) by (destruct xs; [congruence | simpl; lia]).
  replace ((- Z.of_nat (length xs) <=? -1)%Z && (-1 <? Z.of_nat (length xs))%Z)
    with true
    by (symmetry; apply andb_true_iff; split;
        [apply Z.leb_le | apply Z.ltb_lt]; lia).
  cbn [np.data np.size_of fold_right Z.ltb Z.compare].
  replace (Z.to_nat (-1 + Z.of_nat (length xs)) * 1)%nat
    with (length xs - 1)%nat by lia.
  now rewrite firstn_last.
Qed.

Lemma item_first (x : Q) (xs : list Q) :
  np.item (np.mk_nd [length (x :: xs)] (x :: xs)) 0 = Ok (np.scalar x).
Proof.
  unfold np.item, np.norm_index. cbn [np.shape].
  replace ((- Z.of_nat (length (x :: xs)) <=? 0)%Z
           && (0 <? Z.of_nat (length (x :: xs)))%Z) with true; [reflexivity|].
  symmetry. apply andb_true_iff. simpl length.
  split; [apply Z.leb_le | apply Z.ltb_lt]; lia.
Qed.

Lemma last_map {A B : Type} (f : A -> B) (l : list A) (d : A) :
  last (map f l) (f d) = f (last l d).
Proof.
  induction l as [|x l IH]; [reflexivity|].
  destruct l as [|y l]; [reflexivity | exact IH].
Qed.

Lemma by_start_trans : Relations_1.Transitive by_start.
Proof. intros x y z. unfold by_start, key_le. apply Qle_trans. Qed.

(** X8: on a non-empty epoch array [start] is the start of the first epoch
    and no epoch starts before it; [stop] is the stop of the last epoch,
    the one that starts last. *)
Theorem X8_start_is_earliest (e : EpochArray.t) :
  invariant e ->
  exists s,
    EpochArray.start e = Ok (np.scalar s) /\
    s = fst (hd (0, 0) (time_intervals e)) /\
    Forall (fun p => s <= fst p) (time_intervals e) /\
    EpochArray.stop e = Ok (np.scalar (snd (last (time_intervals e) (0, 0)))).
Proof.
  intros (l & Hl & Hv & Hs & Hfs & He).
  set (fs := EpochArray.fs e) in *. set (meta := EpochArray.meta e) in *.
  rewrite He, time_intervals_of_rows.
  pose proof (scale_sorted fs Hfs Hs) as HsT.
  assert (HT : map (scale fs) l <> []) by (destruct l; [congruence | discriminate]).
  unfold EpochArray.start, EpochArray.stop.
  rewrite isempty_of_rows by assumption. cbn [bind of_rows EpochArray.time].
  rewrite col_0_of_pairs, col_1_of_pairs. cbn [bind].
  destruct (map (scale fs) l) as [|p T] eqn:ET; [congruence|].
  exists (fst p). split; [|split; [reflexivity|split]].
  - rewrite <- (length_map fst). apply (item_first (fst p) (map fst T)).
  - constructor; [apply Qle_refl|].
    apply Sorted_StronglySorted in HsT; [|exact by_start_trans].
    apply StronglySorted_inv in HsT. exact (proj2 HsT).
  - rewrite <- (length_map snd). rewrite item_last by discriminate.
    do 2 f_equal. change 0 with (snd (0, 0)) at 1. apply last_map.
Qed.

Lemma X8_witness :
  exists s,
    EpochArray.start (of_rows [(0, 10); (4, 6)] FsNone None) = Ok (np.scalar s) /\
    s = 0 /\
    EpochArray.stop (of_rows [(0, 10); (4, 6)] FsNone None) = Ok (np.scalar 6).
Proof.
  destruct (@X8_start_is_earliest (of_rows [(0, 10); (4, 6)] FsNone None))
    as (s & H1 & H2 & _ & H3).
  - exists [(0, 10); (4, 6)]. split; [discriminate|].
    split; [repeat constructor; discriminate|].
    split; [repeat constructor; discriminate|].
    split; [exact I | reflexivity].
  - exists s. split; [exact H1|]. split; [exact H2 | exact H3].
Defined.



(** * expand, shrink and back *)







(** * Indexing in range *)

Lemma skipn_flat (k : nat) (l : list (Q * Q)) :
  skipn (k * 2) (np.flat l) = np.flat (skipn k l).
Proof.
  revert l. induction k as [|k IH]; intros l; [reflexivity|].
  destruct l as [|p l]; [reflexivity|]. apply IH.
Qed.

Lemma firstn_flat (k : nat) (l : list (Q * Q)) :
  firstn (k * 2) (np.flat l) = np.flat (firstn k l).
Proof.
  revert l. induction k as [|k IH]; intros l; [reflexivity|].
  destruct l as [|p l]; [reflexivity|].
  change (firstn (S k * 2) (np.flat (p :: l)))
    with (fst p :: snd p :: firstn (k * 2) (np.flat l)).
  rewrite IH. reflexivity.
Qed.

Lemma firstn_1_skipn {A : Type} (k : nat) (l : list A) (d : A) :
  (k < length l)%nat -> firstn 1 (skipn k l) = [nth k l d].
Proof.
  revert l. induction k as [|k IH]; intros [|x l] H; simpl in *; try lia.
  - reflexivity.
  - apply IH. lia.
Qed.

Lemma norm_index_range (n : nat) (i : Z) :
  (- Z.of_nat n <= i < Z.of_nat n)%Z ->
  let k := Z.to_nat (if (i <? 0)%Z then i + Z.of_nat n else i) in
  np.norm_index n i = Some k /\ (k < n)%nat.
Proof.
  intros H. unfold np.norm_index.
  replace ((- Z.of_nat n <=? i)%Z && (i <? Z.of_nat n)%Z) with true
    by (symmetry; apply andb_true_iff; split;
        [apply Z.leb_le | apply Z.ltb_lt]; lia).
  split; [reflexivity|]. destruct (i <? 0)%Z eqn:E;
    [apply Z.ltb_lt in E | apply Z.ltb_ge in E]; lia.
Qed.


(** X12: an integer index in range, counted from the end when negative,
    returns the epoch array of that single epoch, with the rate and the
    metadata of the indexed one. *)
Theorem X12_integer_index_in_range (e : EpochArray.t) (i : Z) :
  invariant e ->
  (- Z.of_nat (length (intervals e)) <= i < Z.of_nat (length (intervals e)))%Z ->
  let k := Z.to_nat (if (i <? 0)%Z
                     then i + Z.of_nat (length (intervals e)) else i) in
  exists e',
    EpochArray.__getitem__ e (EpochArray.IdxInt i) = Ok e' /\
    intervals e' = [nth k (intervals e) (0, 0)] /\
    EpochArray.fs e' = EpochArray.fs e /\
    EpochArray.meta e' = EpochArray.meta e.
Proof.
  intros (l & Hl & Hv & Hs & Hfs & He).
  set (fs := EpochArray.fs e) in *. set (meta := EpochArray.meta e) in *.
  rewrite He. rewrite intervals_of_rows. intros Hi.
  destruct (@norm_index_range (length l) i Hi) as [Hk Hlt].
  cbv zeta. set (k := Z.to_nat _) in *.
  exists (of_rows [nth k l (0, 0)] fs meta).
  split; [|split; [apply intervals_of_rows | split; reflexivity]].
  unfold EpochArray.__getitem__, np.row, np.item.
  cbn [of_rows EpochArray.samples np.ndim np.of_pairs np.shape length
         Nat.ltb Nat.leb np.data np.size_of fold_right Nat.mul].
  rewrite Hk. change (1 + (1 + 0))%nat with (1 * 2)%nat.
  rewrite skipn_flat, firstn_flat, (@firstn_1_skipn _ k l (0, 0) Hlt).
  cbn [bind try_except].
  change (np.wrap (np.mk_nd [2%nat] (np.flat [nth k l (0, 0)])))
    with (np.of_pairs [nth k l (0, 0)]).
  change (EpochArray.fs (of_rows l fs meta)) with fs.
  change (EpochArray.meta (of_rows l fs meta)) with meta.
  rewrite init_of_pairs; [| discriminate | assumption].
  cbn [existsb orb].
  assert (Hvk : valid (nth k l (0, 0))).
  { apply Forall_forall with (x := nth k l (0, 0)) in Hv; [exact Hv|].
    now apply nth_In. }
  replace (Qltb _ 0) with false by (symmetry; apply Qltb_false; unfold valid in Hvk; lra).
  reflexivity.
Qed.

Lemma X12_witness :
  exists e',
    EpochArray.__getitem__ (of_rows [(0, 1); (2, 3); (4, 5)] FsNone None)
      (EpochArray.IdxInt (-1)) = Ok e' /\
    intervals e' = [(4, 5)].
Proof.
  destruct (@X12_integer_index_in_range
              (of_rows [(0, 1); (2, 3); (4, 5)] FsNone None) (-1))
    as (e' & H1 & H2 & _).
  - exists [(0, 1); (2, 3); (4, 5)]. split; [discriminate|].
    split; [repeat constructor; discriminate|].
    split; [repeat constructor; discriminate|].
    split; [exact I | reflexivity].
  - cbv. split; [discriminate | reflexivity].
  - exists e'. split; [exact H1 | exact H2].
Defined.











(** * merge *)







Section MergeLoop.
Variable l : list (Q * Q).
Variable gap : Q.

Let starts := np.vec (map fst l).
Let stops := np.vec (map snd l).
Let to_merge :=
  map (fun x => Qleb 0 x)
    (np.zip_with Qminus
       (map (fun x => x + gap) (firstn (length l - 1) (map snd l)))
       (skipn 1 (map fst l))).


End MergeLoop.

















(** X15: [merge] tests for an empty epoch array before it tests the gap:
    an empty one is returned as it is whatever the gap, a non-empty one
    with a negative gap raises the ValueError of line 370. *)
Theorem X15_merge_edges (e : EpochArray.t) (gap : Q) :
  (EpochArray.isempty e = Ok true -> EpochArray.merge e gap = Ok e) /\
  (invariant e -> gap < 0 ->
   EpochArray.merge e gap = Raise (ValueError "gap cannot be negative")).
Proof.
  split.
  - intros H. unfold EpochArray.merge. now rewrite H.
  - intros (l & Hl & _ & _ & _ & He) Hg. rewrite He.
    unfold EpochArray.merge. rewrite isempty_of_rows by assumption.
    cbn [bind]. apply Qltb_true in Hg. now rewrite Hg.
Qed.

Lemma X15_witness :
  EpochArray.merge EpochArray.empty (-1) = Ok EpochArray.empty /\
  EpochArray.merge (of_rows [(0, 5)] FsNone None) (-1)
  = Raise (ValueError "gap cannot be negative").
Proof.
  split.
  - apply (proj1 (X15_merge_edges EpochArray.empty (-1))). reflexivity.
  - apply (proj2 (X15_merge_edges (of_rows [(0, 5)] FsNone None) (-1))).
    + exists [(0, 5)]. split; [discriminate|].
      split; [repeat constructor; discriminate|].
      split; [repeat constructor|].
      split; [exact I | reflexivity].
    + reflexivity.
Defined.

(** * intersect *)

(** Decide every comparison in the goal, dropping impossible cases. *)
Ltac split_cmp :=
  repeat match goal with
    | |- context [Qleb ?x ?y] =>
        let E := fresh "E" in
        destruct (Qleb x y) eqn:E;
        [apply Qleb_true in E | apply Qleb_false in E];
        try (exfalso; lra)
    | |- context [Qltb ?x ?y] =>
        let E := fresh "E" in
        destruct (Qltb x y) eqn:E;
        [apply Qltb_true in E | apply Qltb_false in E];
        try (exfalso; lra)
    end.

Lemma overlap_meet (boundaries : bool) (a0 a1 b0 b1 : Q) :
  b0 < a1 -> a0 < b1 ->
  exists s e,
    EpochArray.overlap boundaries a0 a1 b0 b1 = Some (s, e) /\
    (boundaries = true -> s == Qmax a0 b0 /\ e == Qmin a1 b1) /\
    (boundaries = false -> s = b0 /\ e = b1).
Proof.
  intros H1 H2. unfold EpochArray.overlap.
  split_cmp; cbn [andb]; destruct boundaries;
    (eexists; eexists; split; [reflexivity|]; split; intros Hb;
     try discriminate Hb; split; try reflexivity);
    first [ symmetry; apply Q.max_r; lra | symmetry; apply Q.max_l; lra
          | symmetry; apply Q.min_r; lra | symmetry; apply Q.min_l; lra ].
Qed.

Lemma overlap_apart (boundaries : bool) (a0 a1 b0 b1 : Q) :
  a1 <= b0 \/ b1 <= a0 ->
  EpochArray.overlap boundaries a0 a1 b0 b1 = None.
Proof.
  intros H. unfold EpochArray.overlap.
  destruct H as [H|H]; split_cmp; reflexivity.
Qed.

(** X16: with [boundaries=True] the test of lines 316-337 emits an epoch
    exactly when the interiors of A's and B's epochs meet (B starts before
    A stops and A starts before B stops), and the emitted epoch is the
    common part, from the later start to the earlier stop; epochs that only
    touch at an end emit nothing. *)
Theorem X16_overlap_with_boundaries (a0 a1 b0 b1 : Q) :
  (b0 < a1 /\ a0 < b1 ->
   exists s e,
     EpochArray.overlap true a0 a1 b0 b1 = Some (s, e) /\
     s == Qmax a0 b0 /\ e == Qmin a1 b1) /\
  (a1 <= b0 \/ b1 <= a0 -> EpochArray.overlap true a0 a1 b0 b1 = None).
Proof.
  split.
  - intros [H1 H2].
    destruct (@overlap_meet true a0 a1 b0 b1 H1 H2) as (s & e & H & Hb & _).
    exists s, e. split; [exact H | now apply Hb].
  - apply overlap_apart.
Qed.

Lemma X16_witness :
  (exists s e,
      EpochArray.overlap true 0 10 5 15 = Some (s, e) /\
      s == Qmax 0 5 /\ e == Qmin 10 15) /\
  EpochArray.overlap true 0 10 10 20 = None.
Proof.
  split.
  - apply (proj1 (X16_overlap_with_boundaries 0 10 5 15)). split; reflexivity.
  - apply (proj2 (X16_overlap_with_boundaries 0 10 10 20)). left. discriminate.
Defined.

(** X17: with [boundaries=False] the same test emits, whenever it emits,
    the epoch of B unchanged, whichever of the four cases applies. *)
Theorem X17_overlap_without_boundaries (a0 a1 b0 b1 : Q) :
  (b0 < a1 /\ a0 < b1 ->
   EpochArray.overlap false a0 a1 b0 b1 = Some (b0, b1)) /\
  (a1 <= b0 \/ b1 <= a0 -> EpochArray.overlap false a0 a1 b0 b1 = None).
Proof.
  split.
  - intros [H1 H2].
    destruct (@overlap_meet false a0 a1 b0 b1 H1 H2) as (s & e & H & _ & Hb).
    destruct (Hb eq_refl) as [-> ->]. exact H.
  - apply overlap_apart.
Qed.

Lemma X17_witness :
  EpochArray.overlap false 0 10 (-5) 3 = Some (-5, 3).
Proof.
  apply (proj1 (X17_overlap_without_boundaries 0 10 (-5) 3)).
  split; reflexivity.
Defined.






(** * join *)








(** X21: [join] with an empty operand returns the other operand itself,
    whatever the metadata given: the second when the first is empty, the
    first when only the second is. *)
Theorem X21_join_with_empty (e1 e2 : EpochArray.t) (meta : pymeta) :
  (EpochArray.isempty e1 = Ok true -> EpochArray.join e1 e2 meta = Ok e2) /\
  (invariant e1 -> EpochArray.isempty e2 = Ok true ->
   EpochArray.join e1 e2 meta = Ok e1).
Proof.
  split.
  - intros H. unfold EpochArray.join. now rewrite H.
  - intros (l & Hl & _ & _ & _ & He) H. unfold EpochArray.join.
    rewrite He at 1. rewrite isempty_of_rows by assumption. cbn [bind].
    now rewrite H.
Qed.

Lemma X21_witness :
  EpochArray.join EpochArray.empty (of_rows [(0, 5)] FsNone None) None
  = Ok (of_rows [(0, 5)] FsNone None)
  /\ EpochArray.join (of_rows [(0, 5)] FsNone None) EpochArray.empty None
     = Ok (of_rows [(0, 5)] FsNone None).
Proof.
  split.
  - apply (proj1 (X21_join_with_empty EpochArray.empty
                    (of_rows [(0, 5)] FsNone None) None)).
    reflexivity.
  - apply (proj2 (X21_join_with_empty (of_rows [(0, 5)] FsNone None)
                    EpochArray.empty None)).
    + exists [(0, 5)]. split; [discriminate|].
      split; [repeat constructor; discriminate|].
      split; [repeat constructor|]. split; [exact I | reflexivity].
    + reflexivity.
Defined.

(** * Spike trains and their support *)

Lemma in_epochs_iff (T : list (Q * Q)) (t : Q) :
  in_epochs T t = true <-> Exists (fun p => fst p <= t <= snd p) T.
Proof.
  unfold in_epochs. rewrite existsb_exists, Exists_exists.
  split; intros (p & Hp & H); exists p; (split; [exact Hp|]).
  - apply andb_true_iff in H. destruct H as [H1 H2].
    split; now apply Qleb_true.
  - apply andb_true_iff. split; apply Qleb_true; tauto.
Qed.

Lemma iter_of_pairs (T : list (Q * Q)) :
  np.iter (np.of_pairs T)
  = Ok (map (fun p => np.mk_nd [2%nat] [fst p; snd p]) T).
Proof.
  unfold np.iter. cbn [np.of_pairs np.shape np.data].
  change (np.size_of [2%nat]) with 2%nat. now rewrite chunks_flat, map_map.
Qed.

Lemma masks_loop (T : list (Q * Q)) (time : np.ndarray) (acc : list (list bool)) :
  for_each
    (fun acc eptime =>
       t_start <- np.get eptime 0 ;;
       t_stop <- np.get eptime 1 ;;
       Ok (acc ++ [SpikeTrain.within time t_start t_stop]))
    acc (map (fun p => np.mk_nd [2%nat] [fst p; snd p]) T)
  = Ok (acc ++ map (fun p => SpikeTrain.within time (fst p) (snd p)) T).
Proof.
  revert acc. induction T as [|p T IH]; intros acc; cbn [map for_each].
  - now rewrite app_nil_r.
  - change (np.get (np.mk_nd [2%nat] [fst p; snd p]) 0) with (@Ok Q (fst p)).
    change (np.get (np.mk_nd [2%nat] [fst p; snd p]) 1) with (@Ok Q (snd p)).
    cbn [bind]. rewrite IH. now rewrite <- app_assoc.
Qed.

Lemma masks_of_pairs (T : list (Q * Q)) (time : np.ndarray) :
  SpikeTrain.masks (np.of_pairs T) time
  = Ok (map (fun p => SpikeTrain.within time (fst p) (snd p)) T).
Proof.
  unfold SpikeTrain.masks. rewrite iter_of_pairs. cbn [bind].
  now rewrite masks_loop.
Qed.

Lemma map_nth_seq {A B : Type} (f : A -> B) (d : A) (l : list A) :
  map (fun j => f (nth j l d)) (seq 0 (length l)) = map f l.
Proof.
  rewrite <- (map_map (fun j => nth j l d) f). f_equal.
  induction l as [|x l IH]; [reflexivity|].
  cbn [length seq map nth]. f_equal.
  rewrite <- seq_shift, map_map. exact IH.
Qed.

(** [np.any(np.column_stack(indices), axis=1)] over the epochs [T]. *)
Lemma any_columns_in_epochs (T : list (Q * Q)) (ts : list Q) :
  T <> [] ->
  SpikeTrain.any_columns
    (map (fun p => SpikeTrain.within (np.mk_nd [length ts] ts) (fst p) (snd p)) T)
    (length ts)
  = Ok (map (in_epochs T) ts).
Proof.
  intros HT. destruct T as [|p0 T0]; [congruence|]. clear HT.
  unfold SpikeTrain.any_columns. cbn [map]. f_equal.
  change (SpikeTrain.within (np.mk_nd [length ts] ts) (fst p0) (snd p0)
          :: map (fun p => SpikeTrain.within (np.mk_nd [length ts] ts) (fst p) (snd p)) T0)
    with (map (fun p => SpikeTrain.within (np.mk_nd [length ts] ts) (fst p) (snd p))
            (p0 :: T0)).
  generalize (p0 :: T0). intros T.
  rewrite <- (@map_nth_seq Q bool (in_epochs T) 0 ts).
  apply map_ext_in. intros j Hj. apply in_seq in Hj.
  unfold in_epochs, SpikeTrain.within. cbn [np.data].
  induction T as [|p T' IH]; [reflexivity|]. cbn [map existsb].
  f_equal; [|exact IH].
  rewrite (nth_indep _ false ((fun x => Qleb (fst p) x && Qleb x (snd p)) 0))
    by (rewrite length_map; lia).
  now rewrite (map_nth (fun x => Qleb (fst p) x && Qleb x (snd p))).
Qed.

Lemma any_columns_in_epochs' (T : list (Q * Q)) (n : nat) (ts : list Q) :
  T <> [] -> length ts = n ->
  SpikeTrain.any_columns
    (map (fun p => SpikeTrain.within (np.mk_nd [n] ts) (fst p) (snd p)) T) n
  = Ok (map (in_epochs T) ts).
Proof. intros HT <-. now apply any_columns_in_epochs. Qed.

Lemma select_filter (xs : list Q) (g : Q -> bool) :
  map fst (filter snd (combine xs (map g xs))) = filter g xs.
Proof.
  induction xs as [|x xs IH]; [reflexivity|].
  simpl. destruct (g x); simpl; now rewrite IH.
Qed.

Lemma select_filter_map (xs : list Q) (tc : Q -> Q) (g : Q -> bool) :
  map fst (filter snd (combine xs (map g (map tc xs))))
  = filter (fun x => g (tc x)) xs.
Proof. rewrite map_map. apply select_filter. Qed.

Lemma time_of_samples (xs : list Q) (fs : fs_arg) :
  fs_ok fs ->
  match fs with FsNone => Ok (np.vec xs) | _ => div_fs (np.vec xs) fs end
  = Ok (np.mk_nd [length xs] (map (tcoord fs) xs)).
Proof.
  destruct fs as [|f|]; intros H; [| reflexivity | destruct H].
  unfold np.vec. cbn [tcoord]. now rewrite map_id.
Qed.

(** Lines 544-597 with a support that holds epochs. *)
Lemma spiketrain_restricted (xs : list Q) (fs : fs_arg) (sup : EpochArray.t)
  (T : list (Q * Q)) (label cell_type : option string) (meta : pymeta) :
  xs <> [] -> fs_ok fs -> T <> [] -> EpochArray.time sup = np.of_pairs T ->
  SpikeTrain.__init__ (np.vec xs) fs (Some sup) label cell_type meta
  = Ok (SpikeTrain.mk
          (np.vec (filter (fun x => in_epochs T (tcoord fs x)) xs))
          (np.vec (filter (in_epochs T) (map (tcoord fs) xs)))
          sup fs label cell_type meta).
Proof.
  intros Hx Hfs HT Hsup. unfold SpikeTrain.__init__.
  rewrite spiketrain_squeeze_vec by assumption.
  rewrite ndim_vec. cbn [Nat.eqb negb].
  rewrite (proj1 (check_fs_ok fs) Hfs). cbn [bind].
  rewrite time_of_samples by assumption. cbn [bind].
  rewrite len_vec. cbn [bind].
  replace (0 <? length xs)%nat with true
    by (symmetry; apply Nat.ltb_lt; destruct xs; [congruence | simpl; lia]).
  rewrite Hsup, masks_of_pairs. cbn [bind].
  change (np.dim 0 (np.mk_nd [length xs] (map (tcoord fs) xs))) with (length xs).
  rewrite (@any_columns_in_epochs' T (length xs) (map (tcoord fs) xs) HT
             (length_map _ _)).
  cbn [bind].
  unfold SpikeTrain.select. cbn [np.vec np.data].
  now rewrite select_filter_map, select_filter.
Qed.

Lemma filter_map_swap (tc : Q -> Q) (g : Q -> bool) (xs : list Q) :
  filter g (map tc xs) = map tc (filter (fun x => g (tc x)) xs).
Proof.
  induction xs as [|x xs IH]; [reflexivity|]. simpl.
  destruct (g (tc x)); simpl; now rewrite IH.
Qed.

(** X22: a non-empty spike train built on a support that holds epochs
    keeps the support and exactly the samples whose time lies in one of its
    epochs, ends included, in their order; the times kept are the times of
    the samples kept. *)
Theorem X22_spikes_restricted_to_support (xs : list Q) (fs : fs_arg)
  (sup : EpochArray.t) (label cell_type : option string) (meta : pymeta) :
  xs <> [] -> fs_ok fs -> invariant sup ->
  exists st,
    SpikeTrain.__init__ (np.vec xs) fs (Some sup) label cell_type meta = Ok st /\
    SpikeTrain.support st = sup /\
    np.data (SpikeTrain.samples st)
    = filter (fun x => in_epochs (time_intervals sup) (tcoord fs x)) xs /\
    np.data (SpikeTrain.time st) = map (tcoord fs) (np.data (SpikeTrain.samples st)) /\
    Forall (fun x => Exists (fun p => fst p <= tcoord fs x <= snd p)
                       (time_intervals sup))
      (np.data (SpikeTrain.samples st)).
Proof.
  intros Hx Hfs (l & Hl & _ & _ & _ & He).
  set (T := map (scale (EpochArray.fs sup)) l).
  assert (HT : T <> []) by (unfold T; destruct l; [congruence | discriminate]).
  assert (Htime : EpochArray.time sup = np.of_pairs T) by (rewrite He; reflexivity).
  assert (HTi : time_intervals sup = T)
    by (rewrite He at 1; apply time_intervals_of_rows).
  rewrite HTi.
  rewrite (@spiketrain_restricted xs fs sup T label cell_type meta Hx Hfs HT Htime).
  eexists. split; [reflexivity|]. cbn [SpikeTrain.support SpikeTrain.samples
                                         SpikeTrain.time np.vec np.data].
  split; [reflexivity|]. split; [reflexivity|]. split; [apply filter_map_swap|].
  apply Forall_forall. intros x Hin. apply filter_In in Hin.
  apply in_epochs_iff. tauto.
Qed.

Lemma X22_witness :
  exists st,
    SpikeTrain.__init__ (np.vec [1; 2; 3; 9]) FsNone
      (Some (of_rows [(0, 5)] FsNone None)) None None None = Ok st /\
    np.data (SpikeTrain.samples st) = [1; 2; 3].
Proof.
  destruct (@X22_spikes_restricted_to_support [1; 2; 3; 9] FsNone
              (of_rows [(0, 5)] FsNone None) None None None)
    as (st & H1 & _ & H2 & _).
  - discriminate.
  - exact I.
  - exists [(0, 5)]. split; [discriminate|].
    split; [repeat constructor; discriminate|].
    split; [repeat constructor|]. split; [exact I | reflexivity].
  - exists st. split; [exact H1 | exact H2].
Defined.

(** X23: a non-empty spike train cannot be built on an empty support: no
    mask is collected and [np.column_stack] of the empty list raises its
    ValueError. *)
Theorem X23_spikes_on_empty_support (xs : list Q) (fs : fs_arg)
  (sup : EpochArray.t) (label cell_type : option string) (meta : pymeta) :
  xs <> [] -> fs_ok fs -> EpochArray.isempty sup = Ok true ->
  SpikeTrain.__init__ (np.vec xs) fs (Some sup) label cell_type meta
  = Raise (ValueError "need at least one array to concatenate").
Proof.
  intros Hx Hfs Hempty. unfold SpikeTrain.__init__.
  rewrite spiketrain_squeeze_vec by assumption.
  rewrite ndim_vec. cbn [Nat.eqb negb].
  rewrite (proj1 (check_fs_ok fs) Hfs). cbn [bind].
  rewrite time_of_samples by assumption. cbn [bind].
  rewrite len_vec. cbn [bind].
  replace (0 <? length xs)%nat with true
    by (symmetry; apply Nat.ltb_lt; destruct xs; [congruence | simpl; lia]).
  unfold EpochArray.isempty, np.len in Hempty.
  unfold SpikeTrain.masks, np.iter.
  destruct (np.shape (EpochArray.time sup)) as [|n rest]; [discriminate Hempty|].
  cbn [bind] in Hempty. injection Hempty as Hn. apply Nat.eqb_eq in Hn. subst n.
  reflexivity.
Qed.

Lemma X23_witness :
  SpikeTrain.__init__ (np.vec [1; 2]) FsNone (Some EpochArray.empty) None None None
  = Raise (ValueError "need at least one array to concatenate").
Proof.
  apply (@X23_spikes_on_empty_support [1; 2] FsNone EpochArray.empty None None None).
  - discriminate.
  - exact I.
  - reflexivity.
Defined.

(** [a[i]] of a vector for an index in range, negative or not. *)
Lemma item_norm (xs : list Q) (i : Z) (k : nat) :
  np.norm_index (length xs) i = Some k -> (k < length xs)%nat ->
  np.item (np.vec xs) i = Ok (np.scalar (nth k xs 0)).
Proof.
  intros Hk Hlt. unfold np.item. cbn [np.vec np.shape]. rewrite Hk.
  cbn [np.data np.size_of fold_right np.vec].
  now rewrite Nat.mul_1_r, (@firstn_1_skipn _ k xs 0 Hlt).
Qed.

(** A single sample given as a number is read as a vector of one sample. *)
Lemma spiketrain_init_scalar (x : Q) (fs : fs_arg) (sup : option EpochArray.t)
  (label cell_type : option string) (meta : pymeta) :
  SpikeTrain.__init__ (np.scalar x) fs sup label cell_type meta
  = SpikeTrain.__init__ (np.vec [x]) fs sup label cell_type meta.
Proof. reflexivity. Qed.

Lemma in_epochs_point (t : Q) : in_epochs [(t, t)] t = true.
Proof.
  unfold in_epochs. cbn [existsb fst snd].
  replace (Qleb t t) with true by (symmetry; apply Qleb_true, Qle_refl).
  reflexivity.
Qed.

(** X24: an integer index in range on a spike train returns the train of
    that single spike, whose support is the point epoch at the spike, with
    the rate and the label of the indexed train; an index out of range
    returns the empty spike train, without rate or label. *)
Theorem X24_spike_by_integer (st : SpikeTrain.t) (xs : list Q) (i : Z) :
  SpikeTrain.samples st = np.vec xs -> fs_ok (SpikeTrain.fs st) ->
  ((- Z.of_nat (length xs) <= i < Z.of_nat (length xs))%Z ->
   let x := nth (Z.to_nat (if (i <? 0)%Z then i + Z.of_nat (length xs) else i))
              xs 0 in
   SpikeTrain.__getitem__ st (EpochArray.IdxInt i)
   = Ok (SpikeTrain.mk (np.vec [x]) (np.vec [tcoord (SpikeTrain.fs st) x])
           (of_rows [(x, x)] (SpikeTrain.fs st) (SpikeTrain.meta st))
           (SpikeTrain.fs st) (SpikeTrain.label st) (SpikeTrain.cell_type st)
           (SpikeTrain.meta st)))
  /\
  ((i < - Z.of_nat (length xs) \/ Z.of_nat (length xs) <= i)%Z ->
   SpikeTrain.__getitem__ st (EpochArray.IdxInt i)
   = Ok (SpikeTrain.mk (np.vec []) (np.vec []) EpochArray.empty FsNone
           None None None)).
Proof.
  intros Hs Hfs. split.
  - intros Hi. destruct (@norm_index_range (length xs) i Hi) as [Hk Hlt].
    cbv zeta in *. set (k := Z.to_nat _) in *. set (x := nth k xs 0).
    unfold SpikeTrain.__getitem__. rewrite Hs. unfold np.get.
    rewrite (item_norm xs i Hk Hlt). cbn [bind np.scalar np.data hd]. fold x.
    rewrite init_vector_of_starts by (assumption || apply Qle_refl).
    rewrite spiketrain_init_scalar.
    rewrite (@spiketrain_restricted [x] (SpikeTrain.fs st)
               (of_rows [(x, x)] (SpikeTrain.fs st) (SpikeTrain.meta st))
               [scale (SpikeTrain.fs st) (x, x)]);
      [| discriminate | assumption | discriminate | reflexivity].
    assert (E : scale (SpikeTrain.fs st) (x, x)
                = (tcoord (SpikeTrain.fs st) x, tcoord (SpikeTrain.fs st) x))
      by (destruct (SpikeTrain.fs st); reflexivity).
    rewrite E. cbn [filter map]. rewrite in_epochs_point. reflexivity.
  - intros Hi. unfold SpikeTrain.__getitem__. rewrite Hs. unfold np.get, np.item.
    cbn [np.vec np.shape]. rewrite norm_index_out_of_range by assumption.
    reflexivity.
Qed.

Lemma X24_witness :
  SpikeTrain.__getitem__
    (SpikeTrain.mk (np.vec [1; 2; 3]) (np.vec [1; 2; 3])
       (of_rows [(0, 3)] FsNone None) FsNone None None None)
    (EpochArray.IdxInt (-1))
  = Ok (SpikeTrain.mk (np.vec [3]) (np.vec [3]) (of_rows [(3, 3)] FsNone None)
          FsNone None None None).
Proof.
  apply (proj1 (@X24_spike_by_integer
                  (SpikeTrain.mk (np.vec [1; 2; 3]) (np.vec [1; 2; 3])
                     (of_rows [(0, 3)] FsNone None) FsNone None None None)
                  [1; 2; 3] (-1) eq_refl I)).
  cbv. split; [discriminate | reflexivity].
Defined.

(** * Edge cases of the spike train constructor *)

(** X25: the constructor of a spike train on degenerate samples.  Without
    samples the result is the empty spike train on the empty support,
    whatever support was passed, and the rate and the labels are kept; a
    matrix of start/stop pairs is refused unless it has exactly one row,
    which [np.squeeze] turns into a vector of two samples. *)
Theorem X25_constructor_edge_samples (fs : fs_arg) (sup : option EpochArray.t)
  (label cell_type : option string) (meta : pymeta) :
  (fs_ok fs ->
   SpikeTrain.__init__ (np.vec []) fs sup label cell_type meta
   = Ok (SpikeTrain.mk (np.vec []) (np.vec []) EpochArray.empty fs label
           cell_type meta))
  /\
  (forall l : list (Q * Q), length l <> 1%nat ->
   SpikeTrain.__init__ (np.of_pairs l) fs sup label cell_type meta
   = Raise (ValueError "samples must be a vector"))
  /\
  (forall p : Q * Q,
   SpikeTrain.__init__ (np.of_pairs [p]) fs sup label cell_type meta
   = SpikeTrain.__init__ (np.vec [fst p; snd p]) fs sup label cell_type meta).
Proof.
  split; [|split].
  - intros Hfs. unfold SpikeTrain.__init__.
    change (np.squeeze (np.vec [])) with (np.vec []).
    cbn [np.shape np.vec length np.ndim Nat.eqb negb].
    apply check_fs_ok in Hfs. rewrite Hfs. cbn [bind].
    destruct fs; [reflexivity | reflexivity | discriminate Hfs].
  - intros l Hl. unfold SpikeTrain.__init__, np.squeeze, np.of_pairs.
    cbn [np.shape np.data filter Nat.eqb negb].
    destruct (length l =? 1)%nat eqn:E; [apply Nat.eqb_eq in E; contradiction|].
    reflexivity.
  - intros p. reflexivity.
Qed.

Lemma X25_witness :
  SpikeTrain.__init__ (np.vec []) (FsNum 2) (Some (of_rows [(0, 5)] FsNone None))
    None None None
  = Ok (SpikeTrain.mk (np.vec []) (np.vec []) EpochArray.empty (FsNum 2) None
          None None)
  /\ SpikeTrain.__init__ (np.of_pairs [(1, 2); (3, 4)]) FsNone None None None None
     = Raise (ValueError "samples must be a vector").
Proof.
  split.
  - apply (proj1 (X25_constructor_edge_samples (FsNum 2)
                    (Some (of_rows [(0, 5)] FsNone None)) None None None)).
    reflexivity.
  - apply (proj1 (proj2 (X25_constructor_edge_samples FsNone None None None None))).
    simpl. discriminate.
Defined.

(** * issorted *)

Lemma iter_vec (xs : list Q) : np.iter (np.vec xs) = Ok (map np.scalar xs).
Proof.
  unfold np.iter. cbn [np.vec np.shape np.data np.size_of fold_right].
  rewrite chunks_1, map_map. reflexivity.
Qed.

Lemma pairwise_sorted (xs : list Q) :
  forallb (fun p => Qleb (fst p) (snd p)) (combine xs (tl xs)) = true
  <-> Sorted Qle xs.
Proof.
  induction xs as [|x [|y xs] IH].
  - simpl. split; [constructor | reflexivity].
  - simpl. split; [repeat constructor | reflexivity].
  - change (combine (x :: y :: xs) (tl (x :: y :: xs)))
      with ((x, y) :: combine (y :: xs) (tl (y :: xs))).
    cbn [forallb fst snd]. rewrite andb_true_iff, IH, Qleb_true. split.
    + intros [Hxy Hs]. constructor; [exact Hs | constructor; exact Hxy].
    + intros Hs. inversion Hs as [|? ? Hs' Hhd]; subst.
      inversion Hhd; subst. split; assumption.
Qed.

(** X26: [issorted] compares only neighbouring samples, which decides
    the order of the whole train: it answers [True] exactly when no sample
    is greater than a later one. *)
Theorem X26_issorted_reflects (st : SpikeTrain.t) (xs : list Q) :
  SpikeTrain.samples st = np.vec xs ->
  exists b,
    SpikeTrain.issorted st = Ok b /\
    (b = true <->
     forall i j, (i < j < length xs)%nat -> nth i xs 0 <= nth j xs 0).
Proof.
  intros Hs. unfold SpikeTrain.issorted. rewrite Hs, iter_vec. cbn [bind].
  rewrite map_map. cbn [np.scalar np.data hd]. rewrite map_id.
  eexists. split; [reflexivity|]. rewrite pairwise_sorted. split.
  - intros HS. apply Sorted_StronglySorted in HS;
      [| intros a b c; apply Qle_trans].
    clear Hs. induction HS as [|x l HS IH Hall]; intros i j Hij.
    + simpl in Hij. lia.
    + destruct j as [|j]; [lia|]. destruct i as [|i].
      * cbn [nth]. rewrite Forall_forall in Hall. apply Hall, nth_In.
        simpl in Hij. lia.
      * cbn [nth]. apply IH. simpl in Hij. lia.
  - intros H. clear Hs. induction xs as [|x [|y xs] IH].
    + constructor.
    + repeat constructor.
    + constructor.
      * apply IH. intros i j Hij. apply (H (S i) (S j)). simpl in *. lia.
      * constructor. apply (H 0%nat 1%nat). simpl. lia.
Qed.

Lemma X26_witness :
  exists b,
    SpikeTrain.issorted
      (SpikeTrain.mk (np.vec [1; 3; 2]) (np.vec [1; 3; 2])
         (of_rows [(0, 2)] FsNone None) FsNone None None None) = Ok b /\
    (b = true <->
     forall i j, (i < j < 3)%nat -> nth i [1; 3; 2] 0 <= nth j [1; 3; 2] 0).
Proof.
  exact (@X26_issorted_reflects
           (SpikeTrain.mk (np.vec [1; 3; 2]) (np.vec [1; 3; 2])
              (of_rows [(0, 2)] FsNone None) FsNone None None None)
           [1; 3; 2] eq_refl).
Defined.

(** * time_slice and time_slices *)

(** X27: [time_slice] and [time_slices] hand a mask to [__getitem__],
    which takes an epoch array, an integer or a slice only: neither method
    returns a spike train.  [time_slice] raises the ValueError for
    endpoints in the wrong order and the TypeError of the indexing
    otherwise; [time_slices] raises the ValueError for lists of different
    lengths, the ValueError of [np.column_stack] for empty lists, and the
    TypeError otherwise. *)
Theorem X27_time_slices_never_return (st : SpikeTrain.t) :
  (forall a b r, SpikeTrain.time_slice st a b <> Ok r) /\
  (forall ss es r, SpikeTrain.time_slices st ss es <> Ok r) /\
  (forall a b, b < a ->
     SpikeTrain.time_slice st (Some a) (Some b)
     = Raise (ValueError "t_start cannot be greater than t_stop")) /\
  (forall a b,
     match a, b with Some x, Some y => x <= y | _, _ => True end ->
     SpikeTrain.time_slice st a b
     = Raise (TypeError "unsupported subsctipting type")) /\
  (forall ss es, length ss <> length es ->
     SpikeTrain.time_slices st ss es
     = Raise (ValueError "must have same number of start and stop times")) /\
  SpikeTrain.time_slices st [] []
  = Raise (ValueError "need at least one array to concatenate") /\
  (forall ss es, length ss = length es -> ss <> [] ->
     SpikeTrain.time_slices st ss es
     = Raise (TypeError "unsupported subsctipting type")).
Proof.
  repeat split.
  - intros a b r. unfold SpikeTrain.time_slice.
    destruct a as [x|], b as [y|]; try discriminate.
    destruct (Qltb y x); discriminate.
  - intros ss es r. unfold SpikeTrain.time_slices.
    destruct (negb _); [discriminate|].
    destruct (map _ _); discriminate.
  - intros a b Hab. unfold SpikeTrain.time_slice.
    apply Qltb_true in Hab. now rewrite Hab.
  - intros a b Hab. unfold SpikeTrain.time_slice.
    destruct a as [x|], b as [y|]; try reflexivity.
    replace (Qltb y x) with false; [reflexivity|].
    symmetry. apply Qltb_false. exact Hab.
  - intros ss es Hl. unfold SpikeTrain.time_slices.
    apply Nat.eqb_neq in Hl. now rewrite Hl.
  - intros ss es Hl Hss. unfold SpikeTrain.time_slices.
    rewrite Hl, Nat.eqb_refl. cbn [negb].
    destruct ss as [|s ss]; [congruence|].
    destruct es as [|e es]; [discriminate Hl|]. reflexivity.
Qed.

Lemma X27_witness :
  SpikeTrain.time_slice
    (SpikeTrain.mk (np.vec [1; 2; 3]) (np.vec [1; 2; 3])
       (of_rows [(0, 3)] FsNone None) FsNone None None None)
    (Some 1) (Some 2)
  = Raise (TypeError "unsupported subsctipting type").
Proof.
  apply (proj1 (proj2 (proj2 (proj2
           (X27_time_slices_never_return
              (SpikeTrain.mk (np.vec [1; 2; 3]) (np.vec [1; 2; 3])
                 (of_rows [(0, 3)] FsNone None) FsNone None None None)))))
           (Some 1) (Some 2)).
  simpl. discriminate.
Defined.

(** * The rate of a spike train *)

(** X28: setting a positive rate on a spike train keeps the samples and
    the support as they are and recomputes the times from the samples, so
    that of two rates set in a row only the last one counts. *)
Theorem X28_spiketrain_set_fs (st : SpikeTrain.t) (f g : Q) :
  0 < f -> 0 < g ->
  exists st1 st2,
    SpikeTrain.set_fs st (FsNum f) = Ok st1 /\
    SpikeTrain.samples st1 = SpikeTrain.samples st /\
    SpikeTrain.support st1 = SpikeTrain.support st /\
    SpikeTrain.fs st1 = FsNum f /\
    np.shape (SpikeTrain.time st1) = np.shape (SpikeTrain.samples st) /\
    np.data (SpikeTrain.time st1)
    = map (fun x => x / f) (np.data (SpikeTrain.samples st)) /\
    SpikeTrain.set_fs st1 (FsNum g) = Ok st2 /\
    SpikeTrain.set_fs st (FsNum g) = Ok st2.
Proof.
  intros Hf Hg.
  assert (E : forall s q, 0 < q ->
            SpikeTrain.set_fs s (FsNum q)
            = Ok (SpikeTrain.mk (SpikeTrain.samples s)
                    (np.map (fun x => x / q) (SpikeTrain.samples s))
                    (SpikeTrain.support s) (FsNum q) (SpikeTrain.label s)
                    (SpikeTrain._cell_type s) (SpikeTrain._meta s))).
  { intros s q Hq. unfold SpikeTrain.set_fs, fs_le_0, try_except.
    cbn [bind].
    replace (Qleb q 0) with false
      by (symmetry; apply Qleb_false; exact Hq).
    reflexivity. }
  eexists. eexists. rewrite (E st f Hf). split; [reflexivity|].
  cbn [SpikeTrain.samples SpikeTrain.support SpikeTrain.fs SpikeTrain._fs
       SpikeTrain.time np.map np.shape np.data].
  repeat (split; [reflexivity|]).
  rewrite !E by assumption. split; reflexivity.
Qed.

Lemma X28_witness :
  exists st1 st2,
    SpikeTrain.set_fs
      (SpikeTrain.mk (np.vec [2; 4]) (np.vec [2; 4])
         (of_rows [(0, 4)] FsNone None) FsNone None None None) (FsNum 2) = Ok st1 /\
    np.data (SpikeTrain.time st1) = map (fun x => x / 2) [2; 4] /\
    SpikeTrain.set_fs st1 (FsNum 4) = Ok st2.
Proof.
  destruct (@X28_spiketrain_set_fs
              (SpikeTrain.mk (np.vec [2; 4]) (np.vec [2; 4])
                 (of_rows [(0, 4)] FsNone None) FsNone None None None) 2 4)
    as (st1 & st2 & H1 & _ & _ & _ & _ & H2 & H3 & _).
  - reflexivity.
  - reflexivity.
  - exists st1, st2. split; [exact H1 | split; [exact H2 | exact H3]].
Defined.

(** * Slices of a spike train *)








(** * Spike trains indexed by an epoch array *)






